(** * ClutterSeat: the abstract input seat of clutter/clutter/clutter-seat.c

    A shallow embedding of the seat's bookkeeping (focus-inhibition
    reference count, pointer accessibility settings, device lifecycle
    events, optional grab operations) and the properties it satisfies.

    The seat lives in a small state monad: the state is the seat instance
    (its class structure and its private data), every call into an external
    collaborator (signal emission, GLib logging, the accessibility
    subsystem, effectful backend virtual functions, object disposal) is
    recorded in an ordered trace, and a computation either returns or
    stops the process (invalid dereference, failed assertion). *)

From Stdlib Require Import ZArith List Bool String Lia Permutation.
Import ListNotations.
Local Open Scope Z_scope.

(* ================================================================== *)
(** * Data model *)
(* ================================================================== *)

(** ** Machine integers *)

(** [unsigned int] / [guint] / [uint32_t]: 32 bits, arithmetic wraps. *)
Definition UINT_MAX : Z := 4294967295.

Definition guint_wrap (x : Z) : Z := x mod (UINT_MAX + 1).

(** ** Enumerations of the file *)

Inductive Signal : Type :=
| DEVICE_ADDED
| DEVICE_REMOVED
| KBD_A11Y_MASK_CHANGED
| KBD_A11Y_FLAGS_CHANGED
| PTR_A11Y_DWELL_CLICK_TYPE_CHANGED
| PTR_A11Y_TIMEOUT_STARTED
| PTR_A11Y_TIMEOUT_STOPPED
| IS_UNFOCUS_INHIBITED_CHANGED.

Definition PROP_0 : Z := 0.
Definition PROP_TOUCH_MODE : Z := 1.
Definition N_PROPS : Z := 2.

(** ** Types declared in headers outside this file *)

(** Modelled from the spec: the input-mode enumeration of an input device
    (clutter-enums.h is not part of the sources); the spec distinguishes
    logical from physical devices. *)
Inductive ClutterInputMode : Type :=
| CLUTTER_INPUT_MODE_LOGICAL
| CLUTTER_INPUT_MODE_PHYSICAL
| CLUTTER_INPUT_MODE_FLOATING.

(** Modelled from the spec: the device-type enumeration (pointer, keyboard,
    touchscreen, etc.); only the touchscreen tag is inspected by the seat. *)
Inductive ClutterInputDeviceType : Type :=
| CLUTTER_POINTER_DEVICE
| CLUTTER_KEYBOARD_DEVICE
| CLUTTER_TOUCHPAD_DEVICE
| CLUTTER_TOUCHSCREEN_DEVICE
| CLUTTER_TABLET_DEVICE
| CLUTTER_PAD_DEVICE.

(** Modelled from the spec: an input device is an opaque handle with a
    device-mode and a device-type discriminant. *)
Record ClutterInputDevice : Type := mkDevice {
  device_id : Z;
  device_mode : ClutterInputMode;
  device_type : ClutterInputDeviceType
}.

(** [clutter_input_device_get_device_mode] and
    [clutter_input_device_get_device_type] read the two discriminants. *)
Definition clutter_input_device_get_device_mode (d : ClutterInputDevice)
  : ClutterInputMode := device_mode d.

Definition clutter_input_device_get_device_type (d : ClutterInputDevice)
  : ClutterInputDeviceType := device_type d.

(** A [ClutterInputDevice *]: [None] is the null pointer. *)
Definition DevicePtr : Type := option ClutterInputDevice.

Definition CLUTTER_IS_INPUT_DEVICE (p : DevicePtr) : bool :=
  match p with Some _ => true | None => false end.

(** Modelled from the spec: the event type tag distinguishes at least
    device-added and device-removed from all other kinds of event. *)
Inductive ClutterEventType : Type :=
| CLUTTER_NOTHING
| CLUTTER_KEY_PRESS
| CLUTTER_KEY_RELEASE
| CLUTTER_MOTION
| CLUTTER_BUTTON_PRESS
| CLUTTER_BUTTON_RELEASE
| CLUTTER_SCROLL
| CLUTTER_TOUCH_BEGIN
| CLUTTER_TOUCH_UPDATE
| CLUTTER_TOUCH_END
| CLUTTER_DEVICE_ADDED
| CLUTTER_DEVICE_REMOVED.

(** Modelled from the spec: an event carries its type tag and the
    reference to its source device, which may be unresolved (null). *)
Record ClutterEvent : Type := mkEvent {
  event_type : ClutterEventType;
  event_source_device : DevicePtr
}.

Definition clutter_event_get_source_device (e : ClutterEvent) : DevicePtr :=
  event_source_device e.

(** Modelled from the spec: the grab scopes a backend may grant; the seat
    itself only ever produces the all-encompassing one. *)
Inductive ClutterGrabState : Type :=
| CLUTTER_GRAB_STATE_NONE
| CLUTTER_GRAB_STATE_POINTER
| CLUTTER_GRAB_STATE_KEYBOARD
| CLUTTER_GRAB_STATE_ALL.

(** The empty set of virtual device types. *)
Definition CLUTTER_VIRTUAL_DEVICE_TYPE_NONE : Z := 0.

(** Modelled from the spec: the pointer accessibility settings, a plain
    value struct with a [controls] bit mask, a [dwell_click_type]
    enumeration value and further accessibility parameters.  Every member
    is a 32-bit flag set, enumeration or integer; the members the seat
    never names are kept as the sequence of their values. *)
Record ClutterPointerA11ySettings : Type := mkSettings {
  controls : Z;
  dwell_click_type : Z;
  other_params : list Z
}.

(** Object representation of the struct, member after member. *)
Definition settings_repr (s : ClutterPointerA11ySettings) : list Z :=
  controls s :: dwell_click_type s :: other_params s.

(** [memcmp] over two object representations of the same size: zero when
    all units agree, otherwise the sign of the first difference. *)
Fixpoint memcmp (a b : list Z) : Z :=
  match a, b with
  | [], [] => 0
  | x :: a', y :: b' => if x =? y then memcmp a' b' else x - y
  | [], _ :: _ => -1
  | _ :: _, [] => 1
  end.

(** ** The seat instance *)

Definition ClutterKeymap : Type := Z.

(** The class structure of a seat.  A virtual function that only answers a
    question is represented by its answer on this seat; an optional
    virtual function is [None]/[false] when the backend leaves the slot
    empty; calls made for their effect are recorded in the trace. *)
Record ClutterSeatClass : Type := mkClass {
  (* the getter that serves the seat's properties: the seat's own, as
     installed by the class initialiser, unless a backend overrides it *)
  get_property : Z -> option bool;
  get_pointer : DevicePtr;
  get_keyboard : DevicePtr;
  peek_devices : list ClutterInputDevice;
  get_keymap : ClutterKeymap;
  get_supported_virtual_device_types : Z;
  grab : option (Z -> ClutterGrabState);
  ungrab : bool;
  handle_event_post : bool
}.

Record ClutterSeatPrivate : Type := mkPrivate {
  inhibit_unfocus_count : Z;
  pointer_a11y_settings : ClutterPointerA11ySettings
}.

Record ClutterSeat : Type := mkSeat {
  klass : ClutterSeatClass;
  priv : ClutterSeatPrivate
}.

(** A [ClutterSeat *] argument: the null pointer, a pointer to an instance
    of some other type, or a pointer to the seat. *)
Inductive SeatPtr : Type :=
| NULL
| NOT_A_SEAT
| SEAT.

Definition CLUTTER_IS_SEAT (p : SeatPtr) : bool :=
  match p with SEAT => true | _ => false end.

(* ================================================================== *)
(** * Effects *)
(* ================================================================== *)

(** Calls that leave the file, in the order they are made. *)
Inductive Action : Type :=
| SignalEmit (sig : Signal) (args : list DevicePtr)
| GWarning (msg : string)
| GCritical (check : string)
| A11yAddDevice (core_pointer : DevicePtr)
| A11yRemoveDevice (core_pointer : DevicePtr)
| RunDispose (device : DevicePtr)
| BackendBellNotify
| BackendGrab (time : Z)
| BackendUngrab (time : Z)
| BackendHandleEventPost (event : ClutterEvent).

Inductive Fault : Type :=
| InvalidDereference   (* the null pointer was dereferenced *)
| AssertionFailure.    (* g_assert_true failed: the process aborts *)

(** A call returns, stops the process, or runs into behaviour that C
    leaves undefined; about an undefined run nothing more is known (it may
    fault, return, or call anything), so nothing is ever concluded from it. *)
Inductive Outcome (A : Type) : Type :=
| Ret (a : A)
| Crash (f : Fault)
| Undefined.

Arguments Ret {A} a.
Arguments Crash {A} f.
Arguments Undefined {A}.

Record Run (A : Type) : Type := mkRun {
  outcome : Outcome A;
  after : ClutterSeat;
  trace : list Action
}.

Arguments mkRun {A} _ _ _.
Arguments outcome {A} _.
Arguments after {A} _.
Arguments trace {A} _.

Definition M (A : Type) : Type := ClutterSeat -> Run A.

Definition ret {A : Type} (a : A) : M A :=
  fun s => mkRun (Ret a) s [].

Definition bind {A B : Type} (m : M A) (k : A -> M B) : M B :=
  fun s =>
    let r := m s in
    match outcome r with
    | Ret a =>
        let r' := k a (after r) in
        mkRun (outcome r') (after r') (trace r ++ trace r')
    | Crash f => mkRun (Crash f) (after r) (trace r)
    | Undefined => mkRun Undefined (after r) (trace r)
    end.

Definition crash {A : Type} (f : Fault) : M A :=
  fun s => mkRun (Crash f) s [].

Definition undefined {A : Type} : M A :=
  fun s => mkRun Undefined s [].

Definition emit (a : Action) : M unit :=
  fun s => mkRun (Ret tt) s [a].

Definition get_priv : M ClutterSeatPrivate :=
  fun s => mkRun (Ret (priv s)) s [].

Definition put_priv (p : ClutterSeatPrivate) : M unit :=
  fun s => mkRun (Ret tt) (mkSeat (klass s) p) [].

Declare Scope seat_scope.
Delimit Scope seat_scope with seat.

Notation "x <- m ;; k" := (bind m (fun x => k))
  (at level 100, m at next level, right associativity) : seat_scope.
Notation "m ;;; k" := (bind m (fun _ => k))
  (at level 100, right associativity) : seat_scope.

Local Open Scope seat_scope.

(** [g_return_if_fail] / [g_return_val_if_fail] when the check fails: a
    critical message is logged and the sentinel is returned. *)
Definition return_val_if_fail_warning {A : Type} (check : string) (val : A)
  : M A :=
  emit (GCritical check) ;;; ret val.

(** [CLUTTER_SEAT_GET_CLASS (seat)] reads the class pointer through the
    instance, unchecked.  There is no instance behind the null pointer.
    Behind a pointer to an instance of another type there is one, and the
    read succeeds, but what it yields is not a seat class: using it as one
    is undefined. *)
Definition CLUTTER_SEAT_GET_CLASS (seat : SeatPtr) : M ClutterSeatClass :=
  match seat with
  | SEAT => fun s => mkRun (Ret (klass s)) s []
  | NULL => crash InvalidDereference
  | NOT_A_SEAT => undefined
  end.

(* ================================================================== *)
(** * Focus-inhibition reference count *)
(* ================================================================== *)

Definition set_inhibit_unfocus_count (p : ClutterSeatPrivate) (c : Z)
  : ClutterSeatPrivate :=
  mkPrivate c (pointer_a11y_settings p).

Definition clutter_seat_inhibit_unfocus (seat : SeatPtr) : M unit :=
  if negb (CLUTTER_IS_SEAT seat)
  then return_val_if_fail_warning "CLUTTER_IS_SEAT (seat)" tt
  else
    p <- get_priv ;;
    put_priv (set_inhibit_unfocus_count p
                (guint_wrap (inhibit_unfocus_count p + 1))) ;;;
    p <- get_priv ;;
    if inhibit_unfocus_count p =? 1
    then emit (SignalEmit IS_UNFOCUS_INHIBITED_CHANGED [])
    else ret tt.

Definition clutter_seat_uninhibit_unfocus (seat : SeatPtr) : M unit :=
  if negb (CLUTTER_IS_SEAT seat)
  then return_val_if_fail_warning "CLUTTER_IS_SEAT (seat)" tt
  else
    p <- get_priv ;;
    if inhibit_unfocus_count p =? 0
    then
      emit (GWarning
        "Called clutter_seat_uninhibit_unfocus without inhibiting before")
    else
      put_priv (set_inhibit_unfocus_count p
                  (guint_wrap (inhibit_unfocus_count p - 1))) ;;;
      p <- get_priv ;;
      if inhibit_unfocus_count p =? 0
      then emit (SignalEmit IS_UNFOCUS_INHIBITED_CHANGED [])
      else ret tt.

Definition clutter_seat_is_unfocus_inhibited (seat : SeatPtr) : M bool :=
  if negb (CLUTTER_IS_SEAT seat)
  then return_val_if_fail_warning "CLUTTER_IS_SEAT (seat)" false
  else
    p <- get_priv ;;
    ret (0 <? inhibit_unfocus_count p).

(** Driving the reference count with a sequence of calls. *)
Inductive UnfocusCall : Type :=
| Inhibit
| Uninhibit.

Definition do_call (c : UnfocusCall) : M unit :=
  match c with
  | Inhibit => clutter_seat_inhibit_unfocus SEAT
  | Uninhibit => clutter_seat_uninhibit_unfocus SEAT
  end.

Fixpoint do_calls (cs : list UnfocusCall) : M unit :=
  match cs with
  | [] => ret tt
  | c :: rest => do_call c ;;; do_calls rest
  end.

(** Number of is-unfocus-inhibited-changed emissions in a trace. *)
Fixpoint changed_emissions (t : list Action) : nat :=
  match t with
  | [] => O
  | SignalEmit IS_UNFOCUS_INHIBITED_CHANGED _ :: t' => S (changed_emissions t')
  | _ :: t' => changed_emissions t'
  end.

(** The count as the specification words it: every inhibit adds one, an
    uninhibit takes one away when there is one to take (an effective
    decrement) and is ignored at zero.  No machine width is involved. *)
Definition spec_step (c : Z) (call : UnfocusCall) : Z :=
  match call with
  | Inhibit => c + 1
  | Uninhibit => if c =? 0 then 0 else c - 1
  end.

Definition spec_count_from (c : Z) (cs : list UnfocusCall) : Z :=
  fold_left spec_step cs c.

Definition spec_count (cs : list UnfocusCall) : Z := spec_count_from 0 cs.

(** Increments and effective decrements, counted separately. *)
Fixpoint spec_increments (cs : list UnfocusCall) : Z :=
  match cs with
  | [] => 0
  | Inhibit :: rest => 1 + spec_increments rest
  | Uninhibit :: rest => spec_increments rest
  end.

Fixpoint spec_effective_decrements (c : Z) (cs : list UnfocusCall) : Z :=
  match cs with
  | [] => 0
  | Inhibit :: rest => spec_effective_decrements (c + 1) rest
  | Uninhibit :: rest =>
      if c =? 0 then spec_effective_decrements 0 rest
      else 1 + spec_effective_decrements (c - 1) rest
  end.

(** The notification is due exactly on a 0-to-1 or a 1-to-0 transition. *)
Definition spec_transition (before after_ : Z) : bool :=
  ((before =? 0) && (after_ =? 1)) || ((before =? 1) && (after_ =? 0)).

(** Largest value the count takes while the calls are made. *)
Fixpoint spec_peak_from (c : Z) (cs : list UnfocusCall) : Z :=
  match cs with
  | [] => c
  | call :: rest => Z.max c (spec_peak_from (spec_step c call) rest)
  end.

Definition spec_peak (cs : list UnfocusCall) : Z := spec_peak_from 0 cs.

(* ================================================================== *)
(** * Pointer accessibility settings *)
(* ================================================================== *)

Definition clutter_seat_get_pointer (seat : SeatPtr) : M DevicePtr :=
  if negb (CLUTTER_IS_SEAT seat)
  then return_val_if_fail_warning "CLUTTER_IS_SEAT (seat)" None
  else
    seat_class <- CLUTTER_SEAT_GET_CLASS seat ;;
    ret (get_pointer seat_class).

Definition clutter_seat_get_keyboard (seat : SeatPtr) : M DevicePtr :=
  if negb (CLUTTER_IS_SEAT seat)
  then return_val_if_fail_warning "CLUTTER_IS_SEAT (seat)" None
  else
    seat_class <- CLUTTER_SEAT_GET_CLASS seat ;;
    ret (get_keyboard seat_class).

(** A [GList *] is the list it heads; the null pointer of the failed guard
    is the empty list. *)
Definition clutter_seat_peek_devices (seat : SeatPtr)
  : M (list ClutterInputDevice) :=
  if negb (CLUTTER_IS_SEAT seat)
  then return_val_if_fail_warning "CLUTTER_IS_SEAT (seat)" []
  else
    seat_class <- CLUTTER_SEAT_GET_CLASS seat ;;
    ret (peek_devices seat_class).

Definition g_list_copy {A : Type} (l : list A) : list A := map (fun x => x) l.

Definition clutter_seat_list_devices (seat : SeatPtr)
  : M (list ClutterInputDevice) :=
  if negb (CLUTTER_IS_SEAT seat)
  then return_val_if_fail_warning "CLUTTER_IS_SEAT (seat)" []
  else
    devices <- clutter_seat_peek_devices seat ;;
    ret (g_list_copy devices).

Definition clutter_seat_bell_notify (seat : SeatPtr) : M unit :=
  _ <- CLUTTER_SEAT_GET_CLASS seat ;;
  emit BackendBellNotify.

Definition clutter_seat_get_keymap (seat : SeatPtr) : M ClutterKeymap :=
  seat_class <- CLUTTER_SEAT_GET_CLASS seat ;;
  ret (get_keymap seat_class).

Section A11y.

(** Modelled from the spec: the accessibility subsystem's global
    is-pointer-accessibility-enabled query, consulted by
    [clutter_seat_ensure_a11y_state]; its definition is outside this
    file, so it is taken as given. *)
Variable _clutter_is_input_pointer_a11y_enabled : ClutterInputDevice -> bool.

Definition clutter_seat_ensure_a11y_state (seat : SeatPtr) : M unit :=
  core_pointer <- clutter_seat_get_pointer seat ;;
  match core_pointer with
  | Some device =>
      if _clutter_is_input_pointer_a11y_enabled device
      then emit (A11yAddDevice core_pointer)
      else ret tt
  | None => ret tt
  end.

End A11y.

Definition are_pointer_a11y_settings_equal (a b : ClutterPointerA11ySettings)
  : bool :=
  memcmp (settings_repr a) (settings_repr b) =? 0.

Definition clutter_seat_enable_pointer_a11y (seat : SeatPtr) : M unit :=
  core_pointer <- clutter_seat_get_pointer seat ;;
  emit (A11yAddDevice core_pointer).

Definition clutter_seat_disable_pointer_a11y (seat : SeatPtr) : M unit :=
  core_pointer <- clutter_seat_get_pointer seat ;;
  emit (A11yRemoveDevice core_pointer).

Definition set_pointer_a11y_settings (p : ClutterSeatPrivate)
  (settings : ClutterPointerA11ySettings) : ClutterSeatPrivate :=
  mkPrivate (inhibit_unfocus_count p) settings.

Definition clutter_seat_set_pointer_a11y_settings (seat : SeatPtr)
  (settings : ClutterPointerA11ySettings) : M unit :=
  if negb (CLUTTER_IS_SEAT seat)
  then return_val_if_fail_warning "CLUTTER_IS_SEAT (seat)" tt
  else
    p <- get_priv ;;
    if are_pointer_a11y_settings_equal (pointer_a11y_settings p) settings
    then ret tt
    else
      (if (controls (pointer_a11y_settings p) =? 0)
          && negb (controls settings =? 0)
       then clutter_seat_enable_pointer_a11y seat
       else if negb (controls (pointer_a11y_settings p) =? 0)
               && (controls settings =? 0)
       then clutter_seat_disable_pointer_a11y seat
       else ret tt) ;;;
      p <- get_priv ;;
      put_priv (set_pointer_a11y_settings p settings).

(** The accessibility-subsystem calls a change of [controls] from [cur] to
    [new] asks for, with the pointer they are handed. *)
Definition transition_hooks (core_pointer : DevicePtr) (cur new : Z)
  : list Action :=
  if (cur =? 0) && negb (new =? 0) then [A11yAddDevice core_pointer]
  else if negb (cur =? 0) && (new =? 0) then [A11yRemoveDevice core_pointer]
  else [].

(** The out-parameter [settings] is passed as the caller's buffer content
    and returned as the content after the call. *)
Definition clutter_seat_get_pointer_a11y_settings (seat : SeatPtr)
  (settings : ClutterPointerA11ySettings) : M ClutterPointerA11ySettings :=
  if negb (CLUTTER_IS_SEAT seat)
  then return_val_if_fail_warning "CLUTTER_IS_SEAT (seat)" settings
  else
    p <- get_priv ;;
    ret (pointer_a11y_settings p).

Definition set_dwell_click_type (s : ClutterPointerA11ySettings) (t : Z)
  : ClutterPointerA11ySettings :=
  mkSettings (controls s) t (other_params s).

Definition clutter_seat_set_pointer_a11y_dwell_click_type (seat : SeatPtr)
  (click_type : Z) : M unit :=
  if negb (CLUTTER_IS_SEAT seat)
  then return_val_if_fail_warning "CLUTTER_IS_SEAT (seat)" tt
  else
    p <- get_priv ;;
    put_priv (set_pointer_a11y_settings p
                (set_dwell_click_type (pointer_a11y_settings p) click_type)).

(** Driving the settings with a sequence of updates. *)
Inductive A11yUpdate : Type :=
| UpdateSettings (settings : ClutterPointerA11ySettings)
| UpdateDwellClickType (click_type : Z).

Definition do_update (u : A11yUpdate) : M unit :=
  match u with
  | UpdateSettings settings =>
      clutter_seat_set_pointer_a11y_settings SEAT settings
  | UpdateDwellClickType click_type =>
      clutter_seat_set_pointer_a11y_dwell_click_type SEAT click_type
  end.

Fixpoint do_updates (us : list A11yUpdate) : M unit :=
  match us with
  | [] => ret tt
  | u :: rest => do_update u ;;; do_updates rest
  end.

(** An update that cannot switch pointer accessibility off: a dwell click
    type update, or full settings with some control set. *)
Definition keeps_controls (u : A11yUpdate) : bool :=
  match u with
  | UpdateSettings settings => negb (controls settings =? 0)
  | UpdateDwellClickType _ => true
  end.

(* ================================================================== *)
(** * Virtual devices, events, touch mode, grabs *)
(* ================================================================== *)

Definition clutter_seat_get_supported_virtual_device_types (seat : SeatPtr)
  : M Z :=
  if negb (CLUTTER_IS_SEAT seat)
  then return_val_if_fail_warning "CLUTTER_IS_SEAT (seat)"
         CLUTTER_VIRTUAL_DEVICE_TYPE_NONE
  else
    seat_class <- CLUTTER_SEAT_GET_CLASS seat ;;
    ret (get_supported_virtual_device_types seat_class).

(** [event] is a [const ClutterEvent *]: [None] is the null pointer. *)
Definition clutter_seat_handle_event_post (seat : SeatPtr)
  (event : option ClutterEvent) : M bool :=
  if negb (CLUTTER_IS_SEAT seat)
  then return_val_if_fail_warning "CLUTTER_IS_SEAT (seat)" false
  else
    match event with
    | None => return_val_if_fail_warning "event" false
    | Some ev =>
        seat_class <- CLUTTER_SEAT_GET_CLASS seat ;;
        (if handle_event_post seat_class
         then emit (BackendHandleEventPost ev)
         else ret tt) ;;;
        let device := clutter_event_get_source_device ev in
        if negb (CLUTTER_IS_INPUT_DEVICE device)
        then crash AssertionFailure
        else
          match event_type ev with
          | CLUTTER_DEVICE_ADDED =>
              emit (SignalEmit DEVICE_ADDED [device])
          | CLUTTER_DEVICE_REMOVED =>
              emit (SignalEmit DEVICE_REMOVED [device]) ;;;
              emit (RunDispose device)
          | _ => ret tt
          end ;;;
          ret true
    end.

(** The property getter installed by the seat's class initialiser: [Some b]
    stores [b] in the value, [None] is the invalid-property-id warning. *)
Definition clutter_seat_get_property (prop_id : Z) : option bool :=
  if prop_id =? PROP_TOUCH_MODE then Some false else None.

Definition clutter_seat_class_init (k : ClutterSeatClass) : ClutterSeatClass :=
  mkClass clutter_seat_get_property
          (get_pointer k) (get_keyboard k) (peek_devices k) (get_keymap k)
          (get_supported_virtual_device_types k)
          (grab k) (ungrab k) (handle_event_post k).

(** [g_object_get] of the boolean property installed under [prop_id]: the
    class's getter is called on a zero-initialised value. *)
Definition g_object_get_boolean (prop_id : Z) : M bool :=
  fun s =>
    match get_property (klass s) prop_id with
    | Some b => mkRun (Ret b) s []
    | None => mkRun (Ret false) s [GWarning "invalid property id"]
    end.

Definition clutter_seat_get_touch_mode (seat : SeatPtr) : M bool :=
  if negb (CLUTTER_IS_SEAT seat)
  then return_val_if_fail_warning "CLUTTER_IS_SEAT (seat)" false
  else
    touch_mode <- g_object_get_boolean PROP_TOUCH_MODE ;;
    ret touch_mode.

Definition ClutterInputMode_eqb (a b : ClutterInputMode) : bool :=
  match a, b with
  | CLUTTER_INPUT_MODE_LOGICAL, CLUTTER_INPUT_MODE_LOGICAL => true
  | CLUTTER_INPUT_MODE_PHYSICAL, CLUTTER_INPUT_MODE_PHYSICAL => true
  | CLUTTER_INPUT_MODE_FLOATING, CLUTTER_INPUT_MODE_FLOATING => true
  | _, _ => false
  end.

Definition is_touchscreen_type (t : ClutterInputDeviceType) : bool :=
  match t with CLUTTER_TOUCHSCREEN_DEVICE => true | _ => false end.

(** The loop of [clutter_seat_has_touchscreen]: walk the list, stop at the
    first device that is not logical and is a touchscreen. *)
Fixpoint has_touchscreen_loop (l : list ClutterInputDevice) : bool :=
  match l with
  | [] => false
  | device :: next =>
      if negb (ClutterInputMode_eqb
                 (clutter_input_device_get_device_mode device)
                 CLUTTER_INPUT_MODE_LOGICAL)
         && is_touchscreen_type (clutter_input_device_get_device_type device)
      then true
      else has_touchscreen_loop next
  end.

Definition clutter_seat_has_touchscreen (seat : SeatPtr) : M bool :=
  if negb (CLUTTER_IS_SEAT seat)
  then return_val_if_fail_warning "CLUTTER_IS_SEAT (seat)" false
  else
    devices <- clutter_seat_peek_devices seat ;;
    ret (has_touchscreen_loop devices).

Definition clutter_seat_grab (seat : SeatPtr) (time : Z)
  : M ClutterGrabState :=
  seat_class <- CLUTTER_SEAT_GET_CLASS seat ;;
  match grab seat_class with
  | Some backend_grab => emit (BackendGrab time) ;;; ret (backend_grab time)
  | None => ret CLUTTER_GRAB_STATE_ALL
  end.

Definition clutter_seat_ungrab (seat : SeatPtr) (time : Z) : M unit :=
  seat_class <- CLUTTER_SEAT_GET_CLASS seat ;;
  if ungrab seat_class
  then emit (BackendUngrab time)
  else ret tt.

Section QueryState.

(** The sequence, point and modifier types are opaque to the seat. *)
Variables ClutterEventSequence graphene_point_t ClutterModifierType : Type.

(** The backend's [query_state] virtual function: from the device, the
    optional touch sequence and the content of the two optional output
    buffers, its answer and the content of the buffers afterwards. *)
Variable query_state :
  ClutterInputDevice -> option ClutterEventSequence ->
  option graphene_point_t -> option ClutterModifierType ->
  bool * option graphene_point_t * option ClutterModifierType.

(** [coords] and [modifiers] are output buffers ([None] when the caller
    passes no buffer); the result carries their content after the call. *)
Definition clutter_seat_query_state (seat : SeatPtr) (device : DevicePtr)
  (sequence : option ClutterEventSequence)
  (coords : option graphene_point_t) (modifiers : option ClutterModifierType)
  : M (bool * option graphene_point_t * option ClutterModifierType) :=
  if negb (CLUTTER_IS_SEAT seat)
  then return_val_if_fail_warning "CLUTTER_IS_SEAT (seat)"
         (false, coords, modifiers)
  else
    match device with
    | None =>
        return_val_if_fail_warning "CLUTTER_IS_INPUT_DEVICE (device)"
          (false, coords, modifiers)
    | Some dev =>
        _ <- CLUTTER_SEAT_GET_CLASS seat ;;
        ret (query_state dev sequence coords modifiers)
    end.

End QueryState.

(* ================================================================== *)
(** * Sample values *)
(* ================================================================== *)

Definition logical_pointer : ClutterInputDevice :=
  mkDevice 2 CLUTTER_INPUT_MODE_LOGICAL CLUTTER_POINTER_DEVICE.

Definition physical_touchscreen : ClutterInputDevice :=
  mkDevice 7 CLUTTER_INPUT_MODE_PHYSICAL CLUTTER_TOUCHSCREEN_DEVICE.

Definition zero_settings : ClutterPointerA11ySettings :=
  mkSettings 0 0 [0; 0; 0].

Definition dwell_settings : ClutterPointerA11ySettings :=
  mkSettings 2 1 [0; 0; 500].

(** A backend with a logical pointer and a touchscreen that leaves every
    optional slot empty and keeps the seat's own property getter. *)
Definition plain_class : ClutterSeatClass :=
  clutter_seat_class_init
    (mkClass (fun _ => None) (Some logical_pointer) None
             [logical_pointer; physical_touchscreen] 0 0 None false false).

(** The same backend before any logical pointer exists. *)
Definition pointerless_class : ClutterSeatClass :=
  clutter_seat_class_init
    (mkClass (fun _ => None) None None [] 0 0 None false false).

(** A backend that fills the optional slots. *)
Definition hooked_class : ClutterSeatClass :=
  clutter_seat_class_init
    (mkClass (fun _ => None) (Some logical_pointer) None
             [logical_pointer; physical_touchscreen] 0 0
             (Some (fun _ => CLUTTER_GRAB_STATE_POINTER)) true true).

Definition touchscreen_removed : ClutterEvent :=
  mkEvent CLUTTER_DEVICE_REMOVED (Some physical_touchscreen).




(** A freshly constructed instance: private data zero-filled. *)
Definition fresh_seat (k : ClutterSeatClass) : ClutterSeat :=
  mkSeat k (mkPrivate 0 zero_settings).

(* ================================================================== *)
(** * Observations on traces and stored settings *)
(* ================================================================== *)

(** Calls of the accessibility subsystem's add-device and remove-device
    entry points in a trace. *)
Fixpoint add_device_calls (t : list Action) : Z :=
  match t with
  | [] => 0
  | A11yAddDevice _ :: t' => 1 + add_device_calls t'
  | _ :: t' => add_device_calls t'
  end.

Fixpoint remove_device_calls (t : list Action) : Z :=
  match t with
  | [] => 0
  | A11yRemoveDevice _ :: t' => 1 + remove_device_calls t'
  | _ :: t' => remove_device_calls t'
  end.

(** 1 when some pointer accessibility control is set on the seat, else 0. *)
Definition controls_set (s : ClutterSeat) : Z :=
  if controls (pointer_a11y_settings (priv s)) =? 0 then 0 else 1.

(** What an update asks the stored settings to become. *)
Definition apply_update (stored : ClutterPointerA11ySettings) (u : A11yUpdate)
  : ClutterPointerA11ySettings :=
  match u with
  | UpdateSettings settings => settings
  | UpdateDwellClickType click_type => set_dwell_click_type stored click_type
  end.

(** The test of the touchscreen loop on one device. *)
Definition is_physical_touchscreen (d : ClutterInputDevice) : bool :=
  negb (ClutterInputMode_eqb (device_mode d) CLUTTER_INPUT_MODE_LOGICAL)
  && is_touchscreen_type (device_type d).

(** A seat at the top of the counter's range. *)
Definition saturated_seat : ClutterSeat :=
  mkSeat plain_class (mkPrivate UINT_MAX zero_settings).

Definition pointer_moved_unresolved : ClutterEvent :=
  mkEvent CLUTTER_MOTION None.

(* ================================================================== *)
(** * Basic facts *)
(* ================================================================== *)

Arguments guint_wrap : simpl never.

Lemma guint_wrap_small (x : Z) : 0 <= x <= UINT_MAX -> guint_wrap x = x.
Proof.
  intros H. unfold guint_wrap. apply Z.mod_small. unfold UINT_MAX in *. lia.
Qed.

Lemma guint_wrap_range (x : Z) : 0 <= guint_wrap x <= UINT_MAX.
Proof.
  unfold guint_wrap, UINT_MAX.
  pose proof (Z.mod_pos_bound x (4294967295 + 1)). lia.
Qed.

Lemma guint_wrap_succ (x n : Z) :
  guint_wrap (guint_wrap x + n) = guint_wrap (x + n).
Proof. unfold guint_wrap. apply Zplus_mod_idemp_l. Qed.

(** Unfolds the monad and the guarded entry points on the seat pointer. *)
Ltac run_seat :=
  unfold clutter_seat_inhibit_unfocus, clutter_seat_uninhibit_unfocus,
    clutter_seat_is_unfocus_inhibited,
    clutter_seat_set_pointer_a11y_settings,
    clutter_seat_enable_pointer_a11y, clutter_seat_disable_pointer_a11y,
    clutter_seat_ensure_a11y_state,
    clutter_seat_get_pointer_a11y_settings,
    clutter_seat_set_pointer_a11y_dwell_click_type,
    clutter_seat_list_devices, clutter_seat_has_touchscreen,
    clutter_seat_get_pointer, clutter_seat_get_keyboard,
    clutter_seat_peek_devices, clutter_seat_bell_notify,
    clutter_seat_get_keymap,
    clutter_seat_get_supported_virtual_device_types,
    clutter_seat_handle_event_post, clutter_seat_get_touch_mode,
    clutter_seat_grab, clutter_seat_ungrab,
    return_val_if_fail_warning, CLUTTER_SEAT_GET_CLASS, g_object_get_boolean,
    bind, ret, emit, crash, undefined, get_priv, put_priv;
  cbn [CLUTTER_IS_SEAT negb outcome after trace klass priv app
       inhibit_unfocus_count pointer_a11y_settings
       set_inhibit_unfocus_count set_pointer_a11y_settings].

(** ** The reference count, one call at a time *)

Lemma inhibit_unfocus_run (s : ClutterSeat) :
  clutter_seat_inhibit_unfocus SEAT s =
  let c := guint_wrap (inhibit_unfocus_count (priv s) + 1) in
  mkRun (Ret tt)
        (mkSeat (klass s) (set_inhibit_unfocus_count (priv s) c))
        (if c =? 1 then [SignalEmit IS_UNFOCUS_INHIBITED_CHANGED []] else []).
Proof.
  run_seat.
  destruct (guint_wrap (inhibit_unfocus_count (priv s) + 1) =? 1); reflexivity.
Qed.

Lemma uninhibit_unfocus_run_zero (s : ClutterSeat) :
  inhibit_unfocus_count (priv s) = 0 ->
  clutter_seat_uninhibit_unfocus SEAT s =
  mkRun (Ret tt) s
    [GWarning "Called clutter_seat_uninhibit_unfocus without inhibiting before"].
Proof.
  intros H. run_seat. rewrite H. reflexivity.
Qed.

Lemma uninhibit_unfocus_run_pos (s : ClutterSeat) :
  inhibit_unfocus_count (priv s) <> 0 ->
  clutter_seat_uninhibit_unfocus SEAT s =
  let c := guint_wrap (inhibit_unfocus_count (priv s) - 1) in
  mkRun (Ret tt)
        (mkSeat (klass s) (set_inhibit_unfocus_count (priv s) c))
        (if c =? 0 then [SignalEmit IS_UNFOCUS_INHIBITED_CHANGED []] else []).
Proof.
  intros H. run_seat.
  destruct (Z.eqb_spec (inhibit_unfocus_count (priv s)) 0) as [E | _];
    [contradiction |].
  cbn [outcome after trace priv klass inhibit_unfocus_count app].
  destruct (guint_wrap (inhibit_unfocus_count (priv s) - 1) =? 0); reflexivity.
Qed.

(** Every call returns: the counter functions never stop the process. *)
Lemma do_call_returns (c : UnfocusCall) (s : ClutterSeat) :
  outcome (do_call c s) = Ret tt.
Proof.
  destruct c; cbn [do_call].
  - rewrite inhibit_unfocus_run. reflexivity.
  - destruct (Z.eq_dec (inhibit_unfocus_count (priv s)) 0) as [E | E].
    + rewrite uninhibit_unfocus_run_zero by exact E. reflexivity.
    + rewrite uninhibit_unfocus_run_pos by exact E. reflexivity.
Qed.

Lemma do_calls_cons (c : UnfocusCall) (cs : list UnfocusCall) (s : ClutterSeat) :
  after (do_calls (c :: cs) s) = after (do_calls cs (after (do_call c s))).
Proof.
  cbn [do_calls]. unfold bind. rewrite do_call_returns. reflexivity.
Qed.

Lemma do_calls_returns (cs : list UnfocusCall) (s : ClutterSeat) :
  outcome (do_calls cs s) = Ret tt.
Proof.
  revert s. induction cs as [| c cs IH]; intros s.
  - reflexivity.
  - cbn [do_calls]. unfold bind. rewrite do_call_returns.
    cbn [outcome]. apply IH.
Qed.

Lemma do_calls_app (pre post : list UnfocusCall) (s : ClutterSeat) :
  after (do_calls (pre ++ post) s) = after (do_calls post (after (do_calls pre s))).
Proof.
  revert s. induction pre as [| c pre IH]; intros s.
  - reflexivity.
  - rewrite <- app_comm_cons, !do_calls_cons. apply IH.
Qed.

(** ** The count of the specification *)

Lemma spec_step_nonneg (c : Z) (call : UnfocusCall) :
  0 <= c -> 0 <= spec_step c call.
Proof.
  intros H. destruct call; cbn [spec_step]; [lia |].
  destruct (Z.eqb_spec c 0); lia.
Qed.

Lemma spec_peak_from_ge (c : Z) (cs : list UnfocusCall) :
  c <= spec_peak_from c cs.
Proof. destruct cs; cbn [spec_peak_from]; lia. Qed.

Lemma spec_count_from_le_peak (c : Z) (cs : list UnfocusCall) :
  spec_count_from c cs <= spec_peak_from c cs.
Proof.
  revert c. induction cs as [| call cs IH]; intros c.
  - cbn. lia.
  - unfold spec_count_from in *. cbn [fold_left spec_peak_from].
    specialize (IH (spec_step c call)). lia.
Qed.

Lemma spec_peak_from_app (c : Z) (pre post : list UnfocusCall) :
  spec_peak_from c pre <= spec_peak_from c (pre ++ post).
Proof.
  revert c. induction pre as [| call pre IH]; intros c.
  - cbn [app spec_peak_from]. apply spec_peak_from_ge.
  - rewrite <- app_comm_cons. cbn [spec_peak_from].
    specialize (IH (spec_step c call)). lia.
Qed.

Lemma spec_count_from_nonneg (c : Z) (cs : list UnfocusCall) :
  0 <= c -> 0 <= spec_count_from c cs.
Proof.
  revert c. induction cs as [| call cs IH]; intros c H.
  - exact H.
  - unfold spec_count_from in *. cbn [fold_left].
    apply IH, spec_step_nonneg, H.
Qed.

Lemma spec_count_snoc (pre : list UnfocusCall) (c : UnfocusCall) :
  spec_count (pre ++ [c]) = spec_step (spec_count pre) c.
Proof. unfold spec_count, spec_count_from. rewrite fold_left_app. reflexivity. Qed.

(** The folded count is the number of increments minus the number of
    effective decrements. *)
Lemma spec_count_from_tally (c : Z) (cs : list UnfocusCall) :
  spec_count_from c cs
  = c + spec_increments cs - spec_effective_decrements c cs.
Proof.
  revert c. induction cs as [| call cs IH]; intros c.
  - cbn. lia.
  - unfold spec_count_from in *.
    destruct call; cbn [fold_left spec_step spec_increments
                        spec_effective_decrements].
    + rewrite IH. lia.
    + destruct (c =? 0) eqn:E; rewrite IH; [apply Z.eqb_eq in E |]; lia.
Qed.

(** ** One call against the specification *)

Lemma do_call_refines (call : UnfocusCall) (s : ClutterSeat) :
  0 <= inhibit_unfocus_count (priv s) ->
  spec_step (inhibit_unfocus_count (priv s)) call <= UINT_MAX ->
  inhibit_unfocus_count (priv (after (do_call call s)))
  = spec_step (inhibit_unfocus_count (priv s)) call
  /\ changed_emissions (trace (do_call call s))
     = if spec_transition (inhibit_unfocus_count (priv s))
            (spec_step (inhibit_unfocus_count (priv s)) call)
       then 1%nat else 0%nat.
Proof.
  intros Hlo Hhi. set (c := inhibit_unfocus_count (priv s)) in *.
  destruct call; cbn [do_call spec_step] in *.
  - rewrite inhibit_unfocus_run. fold c. cbv zeta.
    rewrite guint_wrap_small by lia.
    cbn [after priv trace set_inhibit_unfocus_count inhibit_unfocus_count].
    split; [reflexivity |]. unfold spec_transition.
    destruct (Z.eqb_spec (c + 1) 1), (Z.eqb_spec c 0), (Z.eqb_spec c 1),
      (Z.eqb_spec (c + 1) 0); try lia; reflexivity.
  - destruct (Z.eqb_spec c 0) as [E | E].
    + rewrite uninhibit_unfocus_run_zero by exact E.
      cbn [after trace changed_emissions]. fold c. rewrite E.
      split; reflexivity.
    + rewrite uninhibit_unfocus_run_pos by exact E. fold c. cbv zeta.
      rewrite guint_wrap_small by lia.
      cbn [after priv trace set_inhibit_unfocus_count inhibit_unfocus_count].
      split; [reflexivity |]. unfold spec_transition.
      destruct (Z.eqb_spec (c - 1) 0), (Z.eqb_spec c 1), (Z.eqb_spec c 0),
        (Z.eqb_spec (c - 1) 1); try lia; reflexivity.
Qed.

Lemma do_calls_refines (cs : list UnfocusCall) (s : ClutterSeat) :
  0 <= inhibit_unfocus_count (priv s) ->
  spec_peak_from (inhibit_unfocus_count (priv s)) cs <= UINT_MAX ->
  inhibit_unfocus_count (priv (after (do_calls cs s)))
  = spec_count_from (inhibit_unfocus_count (priv s)) cs.
Proof.
  revert s. induction cs as [| call cs IH]; intros s Hlo Hhi.
  - reflexivity.
  - cbn [spec_peak_from] in Hhi.
    pose proof (spec_peak_from_ge
                  (spec_step (inhibit_unfocus_count (priv s)) call) cs) as Hge.
    destruct (do_call_refines call s Hlo) as [Hc _]; [lia |].
    rewrite do_calls_cons. unfold spec_count_from. cbn [fold_left].
    rewrite <- Hc. apply IH.
    + rewrite Hc. apply spec_step_nonneg, Hlo.
    + rewrite Hc. lia.
Qed.

Lemma is_unfocus_inhibited_run (s : ClutterSeat) :
  clutter_seat_is_unfocus_inhibited SEAT s
  = mkRun (Ret (0 <? inhibit_unfocus_count (priv s))) s [].
Proof. reflexivity. Qed.

(** ** Long runs of inhibit calls *)

Lemma do_calls_repeat_inhibit (n : nat) (s : ClutterSeat) :
  0 <= inhibit_unfocus_count (priv s) <= UINT_MAX ->
  inhibit_unfocus_count (priv (after (do_calls (repeat Inhibit n) s)))
  = guint_wrap (inhibit_unfocus_count (priv s) + Z.of_nat n).
Proof.
  revert s. induction n as [| n IH]; intros s H.
  - cbn [repeat do_calls ret after]. rewrite Z.add_0_r.
    symmetry. apply guint_wrap_small, H.
  - cbn [repeat]. rewrite do_calls_cons. cbn [do_call].
    rewrite inhibit_unfocus_run. cbv zeta. cbn [after].
    rewrite IH; cbn [priv set_inhibit_unfocus_count inhibit_unfocus_count].
    + rewrite guint_wrap_succ. f_equal. lia.
    + apply guint_wrap_range.
Qed.

Lemma spec_count_from_repeat_inhibit (n : nat) (c : Z) :
  spec_count_from c (repeat Inhibit n) = c + Z.of_nat n.
Proof.
  revert c. induction n as [| n IH]; intros c.
  - cbn. lia.
  - unfold spec_count_from in *. cbn [repeat fold_left spec_step].
    rewrite IH. lia.
Qed.

(* ================================================================== *)
(** * Theorems: focus-inhibition reference count *)
(* ================================================================== *)

(** C1, as stated, fails once the 32-bit counter wraps: after 2^32 inhibit
    calls on a fresh seat and no uninhibit, increments minus effective
    decrements is 2^32 > 0, yet the stored count is back at 0 and
    [clutter_seat_is_unfocus_inhibited] answers false. *)
Lemma unfocus_refcount_wraps_counterexample :
  ~ (outcome (clutter_seat_is_unfocus_inhibited SEAT
                (after (do_calls (repeat Inhibit (Z.to_nat 4294967296))
                                 (fresh_seat plain_class))))
     = Ret true
     <-> 0 < spec_count (repeat Inhibit (Z.to_nat 4294967296))).
Proof.
  assert (Hn : Z.of_nat (Z.to_nat 4294967296) = 4294967296)
    by (apply Z2Nat.id; lia).
  generalize dependent (Z.to_nat 4294967296). intros n Hn [_ H].
  rewrite is_unfocus_inhibited_run in H. cbn [outcome] in H.
  rewrite do_calls_repeat_inhibit in H
    by (cbn [fresh_seat priv inhibit_unfocus_count]; unfold UINT_MAX; lia).
  unfold spec_count in H. rewrite spec_count_from_repeat_inhibit in H.
  rewrite Hn in H.
  cbn [fresh_seat priv inhibit_unfocus_count] in H.
  assert (Hw : guint_wrap (0 + 4294967296) = 0) by reflexivity.
  rewrite Hw in H. cbn in H.
  assert (Hf : @Ret bool false = Ret true) by (apply H; lia).
  discriminate Hf.
Qed.

(** C1 (amended): for every finite sequence of inhibit_unfocus and
    uninhibit_unfocus calls on a seat starting from count 0 during which the
    count (increments minus effective decrements) never exceeds UINT_MAX,
    the stored count equals that count, is_unfocus_inhibited() returns true
    iff it is greater than 0, and each call emits
    is-unfocus-inhibited-changed exactly once when it takes the count from
    0 to 1 or from 1 to 0 and not at all otherwise. *)
Theorem unfocus_refcount_tracks_spec (s : ClutterSeat) (cs : list UnfocusCall) :
  inhibit_unfocus_count (priv s) = 0 ->
  spec_peak cs <= UINT_MAX ->
  outcome (do_calls cs s) = Ret tt
  /\ inhibit_unfocus_count (priv (after (do_calls cs s))) = spec_count cs
  /\ spec_count cs = spec_increments cs - spec_effective_decrements 0 cs
  /\ outcome (clutter_seat_is_unfocus_inhibited SEAT (after (do_calls cs s)))
     = Ret (0 <? spec_count cs)
  /\ (outcome (clutter_seat_is_unfocus_inhibited SEAT (after (do_calls cs s)))
      = Ret true <-> 0 < spec_count cs)
  /\ (forall pre call post,
        cs = pre ++ call :: post ->
        changed_emissions (trace (do_call call (after (do_calls pre s))))
        = if spec_transition (spec_count pre) (spec_count (pre ++ [call]))
          then 1%nat else 0%nat).
Proof.
  intros H0 Hpeak. unfold spec_peak in Hpeak.
  assert (Hcount : forall pre post, cs = pre ++ post ->
            inhibit_unfocus_count (priv (after (do_calls pre s)))
            = spec_count pre).
  { intros pre post E. unfold spec_count. rewrite <- H0.
    apply do_calls_refines; [lia |].
    rewrite H0. pose proof (spec_peak_from_app 0 pre post) as Hp.
    rewrite <- E in Hp. lia. }
  assert (Hall : inhibit_unfocus_count (priv (after (do_calls cs s)))
                 = spec_count cs).
  { apply (Hcount cs []). symmetry. apply app_nil_r. }
  split; [apply do_calls_returns |].
  split; [exact Hall |].
  split; [unfold spec_count; rewrite spec_count_from_tally; lia |].
  rewrite is_unfocus_inhibited_run. cbn [outcome]. rewrite Hall.
  split; [reflexivity |].
  split.
  - split.
    + intros E. injection E as E. apply Z.ltb_lt, E.
    + intros E. apply Z.ltb_lt in E. rewrite E. reflexivity.
  - intros pre call post E.
    pose proof (Hcount pre (call :: post) E) as Hpre.
    rewrite spec_count_snoc.
    destruct (do_call_refines call (after (do_calls pre s))) as [_ Hem].
    + rewrite Hpre. apply spec_count_from_nonneg. lia.
    + rewrite Hpre, <- spec_count_snoc.
      pose proof (spec_count_from_le_peak 0 (pre ++ [call])) as H1.
      pose proof (spec_peak_from_app 0 (pre ++ [call]) post) as H2.
      rewrite <- app_assoc in H2. cbn [app] in H2. rewrite <- E in H2.
      unfold spec_count. lia.
    + rewrite Hpre in Hem. exact Hem.
Qed.

Lemma unfocus_refcount_tracks_spec_witness :
  inhibit_unfocus_count (priv (fresh_seat plain_class)) = 0
  /\ spec_peak [Inhibit; Inhibit; Uninhibit; Uninhibit; Uninhibit; Inhibit]
     <= UINT_MAX
  /\ outcome (clutter_seat_is_unfocus_inhibited SEAT
       (after (do_calls
                 [Inhibit; Inhibit; Uninhibit; Uninhibit; Uninhibit; Inhibit]
                 (fresh_seat plain_class))))
     = Ret true.
Proof.
  split; [reflexivity |].
  split; [vm_compute; discriminate |].
  refine (proj1 (proj2 (proj2 (proj2
    (unfocus_refcount_tracks_spec (fresh_seat plain_class)
       [Inhibit; Inhibit; Uninhibit; Uninhibit; Uninhibit; Inhibit] _ _))))).
  - reflexivity.
  - vm_compute; discriminate.
Defined.

(** C7: uninhibit_unfocus on a seat whose count is 0 returns normally,
    logs the misuse warning and nothing else, emits no
    is-unfocus-inhibited-changed notification, and leaves the seat (count
    included) exactly as it was. *)
Theorem uninhibit_at_zero_is_noop (s : ClutterSeat) :
  inhibit_unfocus_count (priv s) = 0 ->
  outcome (clutter_seat_uninhibit_unfocus SEAT s) = Ret tt
  /\ after (clutter_seat_uninhibit_unfocus SEAT s) = s
  /\ inhibit_unfocus_count (priv (after (clutter_seat_uninhibit_unfocus SEAT s)))
     = 0
  /\ trace (clutter_seat_uninhibit_unfocus SEAT s)
     = [GWarning
          "Called clutter_seat_uninhibit_unfocus without inhibiting before"]
  /\ changed_emissions (trace (clutter_seat_uninhibit_unfocus SEAT s)) = 0%nat.
Proof.
  intros H. rewrite uninhibit_unfocus_run_zero by exact H.
  cbn [outcome after trace changed_emissions]. auto.
Qed.

Lemma uninhibit_at_zero_is_noop_witness :
  inhibit_unfocus_count (priv (fresh_seat plain_class)) = 0
  /\ after (clutter_seat_uninhibit_unfocus SEAT (fresh_seat plain_class))
     = fresh_seat plain_class.
Proof.
  split; [reflexivity |].
  exact (proj1 (proj2 (uninhibit_at_zero_is_noop (fresh_seat plain_class)
                         eq_refl))).
Defined.

(* ================================================================== *)
(** * Theorems: pointer accessibility settings *)
(* ================================================================== *)

(** ** Comparing settings *)

Lemma memcmp_refl (a : list Z) : memcmp a a = 0.
Proof.
  induction a as [| x a IH]; cbn [memcmp]; [reflexivity |].
  rewrite Z.eqb_refl. exact IH.
Qed.

Lemma memcmp_zero_eq (a b : list Z) : memcmp a b = 0 -> a = b.
Proof.
  revert b. induction a as [| x a IH]; intros [| y b]; cbn [memcmp];
    try reflexivity; try discriminate.
  destruct (Z.eqb_spec x y) as [-> | N]; intros H.
  - f_equal. apply IH, H.
  - lia.
Qed.

Lemma settings_repr_inj (a b : ClutterPointerA11ySettings) :
  settings_repr a = settings_repr b -> a = b.
Proof.
  destruct a, b. unfold settings_repr. cbn [controls dwell_click_type other_params].
  intros H. injection H as -> -> ->. reflexivity.
Qed.

Lemma are_pointer_a11y_settings_equal_spec (a b : ClutterPointerA11ySettings) :
  are_pointer_a11y_settings_equal a b = true <-> a = b.
Proof.
  unfold are_pointer_a11y_settings_equal. rewrite Z.eqb_eq. split.
  - intros H. apply settings_repr_inj, memcmp_zero_eq, H.
  - intros ->. apply memcmp_refl.
Qed.

Lemma are_pointer_a11y_settings_equal_false (a b : ClutterPointerA11ySettings) :
  a <> b -> are_pointer_a11y_settings_equal a b = false.
Proof.
  intros N. destruct (are_pointer_a11y_settings_equal a b) eqn:E;
    [| reflexivity].
  apply are_pointer_a11y_settings_equal_spec in E. contradiction.
Qed.

(** ** What one call does *)

Lemma set_pointer_a11y_settings_run_same (s : ClutterSeat)
  (n : ClutterPointerA11ySettings) :
  pointer_a11y_settings (priv s) = n ->
  clutter_seat_set_pointer_a11y_settings SEAT n s = mkRun (Ret tt) s [].
Proof.
  intros E. run_seat.
  rewrite (proj2 (are_pointer_a11y_settings_equal_spec _ _) E). reflexivity.
Qed.

Lemma set_pointer_a11y_settings_run_new (s : ClutterSeat)
  (n : ClutterPointerA11ySettings) :
  pointer_a11y_settings (priv s) <> n ->
  clutter_seat_set_pointer_a11y_settings SEAT n s
  = mkRun (Ret tt)
          (mkSeat (klass s) (set_pointer_a11y_settings (priv s) n))
          (transition_hooks (get_pointer (klass s))
             (controls (pointer_a11y_settings (priv s))) (controls n)).
Proof.
  intros N. run_seat. unfold transition_hooks.
  rewrite (are_pointer_a11y_settings_equal_false _ _ N).
  cbn [outcome after trace priv klass app].
  destruct ((controls (pointer_a11y_settings (priv s)) =? 0)
            && negb (controls n =? 0)); [reflexivity |].
  destruct (negb (controls (pointer_a11y_settings (priv s)) =? 0)
            && (controls n =? 0)); reflexivity.
Qed.

Lemma transition_hooks_enable (p : DevicePtr) (cur new : Z) :
  cur = 0 -> new <> 0 -> transition_hooks p cur new = [A11yAddDevice p].
Proof.
  intros -> N. unfold transition_hooks.
  destruct (Z.eqb_spec new 0); [contradiction | reflexivity].
Qed.

Lemma transition_hooks_disable (p : DevicePtr) (cur new : Z) :
  cur <> 0 -> new = 0 -> transition_hooks p cur new = [A11yRemoveDevice p].
Proof.
  intros N ->. unfold transition_hooks.
  destruct (Z.eqb_spec cur 0); [contradiction | reflexivity].
Qed.

Lemma transition_hooks_none (p : DevicePtr) (cur new : Z) :
  ~ (cur = 0 /\ new <> 0) -> ~ (cur <> 0 /\ new = 0) ->
  transition_hooks p cur new = [].
Proof.
  intros H1 H2. unfold transition_hooks.
  destruct (Z.eqb_spec cur 0), (Z.eqb_spec new 0); cbn; try reflexivity;
    exfalso; [apply H1 | apply H2]; auto.
Qed.

Lemma get_pointer_a11y_settings_run (s : ClutterSeat)
  (buf : ClutterPointerA11ySettings) :
  clutter_seat_get_pointer_a11y_settings SEAT buf s
  = mkRun (Ret (pointer_a11y_settings (priv s))) s [].
Proof. reflexivity. Qed.

Lemma set_dwell_click_type_run (s : ClutterSeat) (click_type : Z) :
  clutter_seat_set_pointer_a11y_dwell_click_type SEAT click_type s
  = mkRun (Ret tt)
      (mkSeat (klass s)
         (set_pointer_a11y_settings (priv s)
            (set_dwell_click_type (pointer_a11y_settings (priv s)) click_type)))
      [].
Proof. reflexivity. Qed.

(** While some control stays set, updates reach no accessibility hook. *)
Lemma do_update_keeps_controls (u : A11yUpdate) (s : ClutterSeat) :
  controls (pointer_a11y_settings (priv s)) <> 0 ->
  keeps_controls u = true ->
  outcome (do_update u s) = Ret tt
  /\ trace (do_update u s) = []
  /\ klass (after (do_update u s)) = klass s
  /\ controls (pointer_a11y_settings (priv (after (do_update u s)))) <> 0.
Proof.
  intros Hc Hk. destruct u as [n | t]; cbn [do_update keeps_controls] in *.
  - apply negb_true_iff, Z.eqb_neq in Hk.
    destruct (are_pointer_a11y_settings_equal
                (pointer_a11y_settings (priv s)) n) eqn:Q.
    + apply are_pointer_a11y_settings_equal_spec in Q.
      rewrite set_pointer_a11y_settings_run_same by exact Q.
      cbn [outcome trace after]. auto.
    + rewrite set_pointer_a11y_settings_run_new
        by (intros C; apply are_pointer_a11y_settings_equal_spec in C;
            congruence).
      cbn [outcome trace after klass priv set_pointer_a11y_settings
           pointer_a11y_settings].
      rewrite transition_hooks_none by (intros []; contradiction). auto.
  - rewrite set_dwell_click_type_run.
    cbn [outcome trace after klass priv set_pointer_a11y_settings
         pointer_a11y_settings set_dwell_click_type controls]. auto.
Qed.

Lemma do_updates_keep_controls (us : list A11yUpdate) (s : ClutterSeat) :
  controls (pointer_a11y_settings (priv s)) <> 0 ->
  forallb keeps_controls us = true ->
  outcome (do_updates us s) = Ret tt
  /\ trace (do_updates us s) = []
  /\ klass (after (do_updates us s)) = klass s
  /\ controls (pointer_a11y_settings (priv (after (do_updates us s)))) <> 0.
Proof.
  revert s. induction us as [| u us IH]; intros s Hc Hk.
  - cbn [do_updates ret outcome trace after]. auto.
  - cbn [forallb] in Hk. apply andb_true_iff in Hk as [Hu Hus].
    destruct (do_update_keeps_controls u s Hc Hu) as (Ho & Ht & Hkl & Hc').
    destruct (IH (after (do_update u s)) Hc' Hus) as (Ho' & Ht' & Hkl' & Hc'').
    cbn [do_updates]. unfold bind. rewrite Ho.
    cbn [outcome trace after]. rewrite Ht, Ht', Hkl', Hkl. auto.
Qed.

(** C2: when the new settings differ from the stored ones, the call
    returns, invokes the add-device hook alone when controls goes from 0 to
    nonzero, the remove-device hook alone when controls goes from nonzero
    to 0, and no hook otherwise; the stored settings become the new value
    in full (count and class untouched) and a subsequent
    get_pointer_a11y_settings returns it.  In particular setting nonzero
    controls and then zero controls on a seat whose controls are 0 invokes
    add-device once and then remove-device once, also when updates that
    keep some control set (dwell click type updates among them) come in
    between. *)
Theorem set_pointer_a11y_settings_transitions :
  (forall (s : ClutterSeat) (n : ClutterPointerA11ySettings),
      pointer_a11y_settings (priv s) <> n ->
      let cur := controls (pointer_a11y_settings (priv s)) in
      let r := clutter_seat_set_pointer_a11y_settings SEAT n s in
      outcome r = Ret tt
      /\ (cur = 0 -> controls n <> 0 ->
          trace r = [A11yAddDevice (get_pointer (klass s))])
      /\ (cur <> 0 -> controls n = 0 ->
          trace r = [A11yRemoveDevice (get_pointer (klass s))])
      /\ (~ (cur = 0 /\ controls n <> 0) -> ~ (cur <> 0 /\ controls n = 0) ->
          trace r = [])
      /\ pointer_a11y_settings (priv (after r)) = n
      /\ inhibit_unfocus_count (priv (after r)) = inhibit_unfocus_count (priv s)
      /\ klass (after r) = klass s
      /\ forall buf,
           outcome (clutter_seat_get_pointer_a11y_settings SEAT buf (after r))
           = Ret n)
  /\ (forall (s : ClutterSeat) (n1 n2 : ClutterPointerA11ySettings),
        controls (pointer_a11y_settings (priv s)) = 0 ->
        controls n1 <> 0 ->
        controls n2 = 0 ->
        trace ((clutter_seat_set_pointer_a11y_settings SEAT n1 ;;;
                clutter_seat_set_pointer_a11y_settings SEAT n2) s)
        = [A11yAddDevice (get_pointer (klass s));
           A11yRemoveDevice (get_pointer (klass s))])
  /\ (forall (s : ClutterSeat) (n1 n2 : ClutterPointerA11ySettings)
             (us : list A11yUpdate),
        controls (pointer_a11y_settings (priv s)) = 0 ->
        controls n1 <> 0 ->
        forallb keeps_controls us = true ->
        controls n2 = 0 ->
        trace ((clutter_seat_set_pointer_a11y_settings SEAT n1 ;;;
                do_updates us ;;;
                clutter_seat_set_pointer_a11y_settings SEAT n2) s)
        = [A11yAddDevice (get_pointer (klass s));
           A11yRemoveDevice (get_pointer (klass s))]).
Proof.
  split; [| split].
  - intros s n N cur r. subst r.
    rewrite (set_pointer_a11y_settings_run_new s n N).
    cbn [outcome after trace priv klass set_pointer_a11y_settings
         pointer_a11y_settings inhibit_unfocus_count].
    repeat split.
    + apply transition_hooks_enable.
    + apply transition_hooks_disable.
    + apply transition_hooks_none.
  - intros s n1 n2 H0 H1 H2. unfold bind.
    assert (N1 : pointer_a11y_settings (priv s) <> n1) by congruence.
    rewrite (set_pointer_a11y_settings_run_new s n1 N1).
    cbn [outcome after trace].
    rewrite set_pointer_a11y_settings_run_new
      by (cbn [priv set_pointer_a11y_settings pointer_a11y_settings];
          congruence).
    cbn [outcome after trace priv klass set_pointer_a11y_settings
         pointer_a11y_settings].
    rewrite transition_hooks_enable, transition_hooks_disable by assumption.
    reflexivity.
  - intros s n1 n2 us H0 H1 Hus H2. unfold bind.
    assert (N1 : pointer_a11y_settings (priv s) <> n1) by congruence.
    rewrite (set_pointer_a11y_settings_run_new s n1 N1).
    cbn [outcome after trace].
    set (s1 := mkSeat (klass s) (set_pointer_a11y_settings (priv s) n1)).
    destruct (do_updates_keep_controls us s1) as (Ho & Ht & Hkl & Hc);
      [exact H1 | exact Hus |].
    rewrite Ho. cbn [outcome after trace]. rewrite Ht.
    rewrite set_pointer_a11y_settings_run_new by congruence.
    cbn [outcome after trace]. rewrite Hkl. cbn [s1 klass].
    rewrite transition_hooks_enable, transition_hooks_disable by assumption.
    reflexivity.
Qed.

Lemma set_pointer_a11y_settings_transitions_witness :
  pointer_a11y_settings (priv (fresh_seat plain_class)) <> dwell_settings
  /\ trace (clutter_seat_set_pointer_a11y_settings SEAT dwell_settings
              (fresh_seat plain_class))
     = [A11yAddDevice (Some logical_pointer)]
  /\ trace ((clutter_seat_set_pointer_a11y_settings SEAT dwell_settings ;;;
             clutter_seat_set_pointer_a11y_settings SEAT zero_settings)
              (fresh_seat plain_class))
     = [A11yAddDevice (Some logical_pointer);
        A11yRemoveDevice (Some logical_pointer)]
  /\ forallb keeps_controls
       [UpdateDwellClickType 3; UpdateSettings (mkSettings 6 3 [0; 0; 800])]
     = true
  /\ trace ((clutter_seat_set_pointer_a11y_settings SEAT dwell_settings ;;;
             do_updates [UpdateDwellClickType 3;
                         UpdateSettings (mkSettings 6 3 [0; 0; 800])] ;;;
             clutter_seat_set_pointer_a11y_settings SEAT zero_settings)
              (fresh_seat plain_class))
     = [A11yAddDevice (Some logical_pointer);
        A11yRemoveDevice (Some logical_pointer)].
Proof.
  assert (N : pointer_a11y_settings (priv (fresh_seat plain_class))
              <> dwell_settings) by (simpl; discriminate).
  split; [exact N |]. split; [| split; [| split; [reflexivity |]]].
  - refine (proj1 (proj2 (proj1 set_pointer_a11y_settings_transitions
                            (fresh_seat plain_class) dwell_settings N)) _ _).
    + reflexivity.
    + simpl; discriminate.
  - refine (proj1 (proj2 set_pointer_a11y_settings_transitions)
              (fresh_seat plain_class) dwell_settings zero_settings _ _ _).
    + reflexivity.
    + simpl; discriminate.
    + reflexivity.
  - refine (proj2 (proj2 set_pointer_a11y_settings_transitions)
              (fresh_seat plain_class) dwell_settings zero_settings
              [UpdateDwellClickType 3;
               UpdateSettings (mkSettings 6 3 [0; 0; 800])] _ _ _ _).
    + reflexivity.
    + simpl; discriminate.
    + reflexivity.
    + reflexivity.
Defined.

(** C5: a call whose argument is bitwise-identical to the stored settings
    ([memcmp] of the two representations is 0) returns without invoking a
    hook and leaves the seat as it was; hence, whatever the first call with
    a value did, an immediate second call with the same value is such a
    no-op. *)
Theorem set_pointer_a11y_settings_idempotent :
  (forall (s : ClutterSeat) (n : ClutterPointerA11ySettings),
      memcmp (settings_repr (pointer_a11y_settings (priv s))) (settings_repr n)
      = 0 ->
      clutter_seat_set_pointer_a11y_settings SEAT n s = mkRun (Ret tt) s [])
  /\ (forall (s : ClutterSeat) (n : ClutterPointerA11ySettings),
        let s1 := after (clutter_seat_set_pointer_a11y_settings SEAT n s) in
        pointer_a11y_settings (priv s1) = n
        /\ clutter_seat_set_pointer_a11y_settings SEAT n s1
           = mkRun (Ret tt) s1 []).
Proof.
  split.
  - intros s n H. apply set_pointer_a11y_settings_run_same.
    apply settings_repr_inj, memcmp_zero_eq, H.
  - intros s n s1.
    assert (E : pointer_a11y_settings (priv s1) = n).
    { subst s1.
      destruct (are_pointer_a11y_settings_equal
                  (pointer_a11y_settings (priv s)) n) eqn:Q.
      - apply are_pointer_a11y_settings_equal_spec in Q.
        rewrite set_pointer_a11y_settings_run_same by exact Q. exact Q.
      - rewrite set_pointer_a11y_settings_run_new; [reflexivity |].
        intros C. apply are_pointer_a11y_settings_equal_spec in C. congruence. }
    split; [exact E |]. apply set_pointer_a11y_settings_run_same, E.
Qed.

Lemma set_pointer_a11y_settings_idempotent_witness :
  memcmp (settings_repr (pointer_a11y_settings
                           (priv (mkSeat plain_class
                                    (mkPrivate 3 dwell_settings)))))
         (settings_repr dwell_settings) = 0
  /\ clutter_seat_set_pointer_a11y_settings SEAT dwell_settings
       (mkSeat plain_class (mkPrivate 3 dwell_settings))
     = mkRun (Ret tt) (mkSeat plain_class (mkPrivate 3 dwell_settings)) [].
Proof.
  split; [reflexivity |].
  apply (proj1 set_pointer_a11y_settings_idempotent). reflexivity.
Defined.

(** C6: set_pointer_a11y_dwell_click_type returns, makes no external call
    at all (so neither accessibility hook), stores the click type in the
    dwell_click_type member and leaves controls, the other settings
    members, the inhibit count and the class as they were, whatever the
    stored controls are. *)
Theorem set_dwell_click_type_frame (s : ClutterSeat) (click_type : Z) :
  let r := clutter_seat_set_pointer_a11y_dwell_click_type SEAT click_type s in
  outcome r = Ret tt
  /\ trace r = []
  /\ dwell_click_type (pointer_a11y_settings (priv (after r))) = click_type
  /\ controls (pointer_a11y_settings (priv (after r)))
     = controls (pointer_a11y_settings (priv s))
  /\ other_params (pointer_a11y_settings (priv (after r)))
     = other_params (pointer_a11y_settings (priv s))
  /\ inhibit_unfocus_count (priv (after r)) = inhibit_unfocus_count (priv s)
  /\ klass (after r) = klass s.
Proof.
  cbv zeta. run_seat. repeat split.
Qed.

Lemma ensure_a11y_state_run (enabled : ClutterInputDevice -> bool)
  (s : ClutterSeat) :
  clutter_seat_ensure_a11y_state enabled SEAT s
  = mkRun (Ret tt) s
      match get_pointer (klass s) with
      | Some device =>
          if enabled device then [A11yAddDevice (Some device)] else []
      | None => []
      end.
Proof.
  run_seat. destruct (get_pointer (klass s)) as [device |]; [| reflexivity].
  destruct (enabled device); reflexivity.
Qed.

(** C10: on a seat whose backend has no logical pointer (get_pointer
    returns null), an enabling change of settings still calls add-device,
    and a disabling one remove-device, each handed the null pointer;
    whereas ensure_a11y_state calls add-device only with a present
    pointer (for which the accessibility query answers yes) and makes no
    call when the pointer is null. *)
Theorem a11y_hooks_take_null_pointer :
  (forall (s : ClutterSeat) (n : ClutterPointerA11ySettings),
      get_pointer (klass s) = None ->
      pointer_a11y_settings (priv s) <> n ->
      let cur := controls (pointer_a11y_settings (priv s)) in
      let r := clutter_seat_set_pointer_a11y_settings SEAT n s in
      (cur = 0 -> controls n <> 0 ->
       outcome r = Ret tt /\ trace r = [A11yAddDevice None])
      /\ (cur <> 0 -> controls n = 0 ->
          outcome r = Ret tt /\ trace r = [A11yRemoveDevice None]))
  /\ (forall (enabled : ClutterInputDevice -> bool) (s : ClutterSeat),
        (get_pointer (klass s) = None ->
         clutter_seat_ensure_a11y_state enabled SEAT s = mkRun (Ret tt) s [])
        /\ (forall a, In a (trace (clutter_seat_ensure_a11y_state enabled SEAT s)) ->
            exists device,
              get_pointer (klass s) = Some device
              /\ enabled device = true
              /\ a = A11yAddDevice (Some device))).
Proof.
  split.
  - intros s n Hp N cur r. subst r cur.
    rewrite (set_pointer_a11y_settings_run_new s n N), Hp.
    cbn [outcome trace]. split; intros H1 H2.
    + rewrite transition_hooks_enable by assumption. auto.
    + rewrite transition_hooks_disable by assumption. auto.
  - intros enabled s. rewrite ensure_a11y_state_run. split.
    + intros ->. reflexivity.
    + cbn [trace]. intros a Ha.
      destruct (get_pointer (klass s)) as [device |]; [| contradiction].
      destruct (enabled device) eqn:E; [| contradiction].
      destruct Ha as [<- | []]. exists device. auto.
Qed.

Lemma a11y_hooks_take_null_pointer_witness :
  get_pointer (klass (fresh_seat pointerless_class)) = None
  /\ pointer_a11y_settings (priv (fresh_seat pointerless_class))
     <> dwell_settings
  /\ trace (clutter_seat_set_pointer_a11y_settings SEAT dwell_settings
              (fresh_seat pointerless_class))
     = [A11yAddDevice None]
  /\ clutter_seat_ensure_a11y_state (fun _ => true) SEAT
       (fresh_seat pointerless_class)
     = mkRun (Ret tt) (fresh_seat pointerless_class) [].
Proof.
  assert (N : pointer_a11y_settings (priv (fresh_seat pointerless_class))
              <> dwell_settings) by (simpl; discriminate).
  split; [reflexivity |]. split; [exact N |]. split.
  - refine (proj2 (proj1 (proj1 a11y_hooks_take_null_pointer
              (fresh_seat pointerless_class) dwell_settings eq_refl N) _ _)).
    + reflexivity.
    + simpl; discriminate.
  - apply (proj1 (proj2 a11y_hooks_take_null_pointer (fun _ => true)
                    (fresh_seat pointerless_class))).
    reflexivity.
Defined.

(* ================================================================== *)
(** * Theorems: device lifecycle events *)
(* ================================================================== *)

(** X12: an event whose source device is unresolved trips the assertion
    after the backend hook (if any) has run: the call does not return, and
    nothing is emitted or disposed, whatever the event type. *)
Lemma handle_event_post_unresolved_device_aborts (s : ClutterSeat)
  (ev : ClutterEvent) :
  clutter_event_get_source_device ev = None ->
  clutter_seat_handle_event_post SEAT (Some ev) s
  = mkRun (Crash AssertionFailure) s
      (if handle_event_post (klass s) then [BackendHandleEventPost ev] else []).
Proof.
  intros H. run_seat. rewrite H.
  destruct (handle_event_post (klass s)); reflexivity.
Qed.

(** C3: for a seat and a delivered event (one that carries its resolved
    source device), handle_event_post returns true, leaves the seat's own
    state alone, and makes exactly these calls in this order: the backend
    hook if the class has one; then device-added with the device for a
    DEVICE_ADDED event, or device-removed with the device followed by the
    disposal of the device for a DEVICE_REMOVED event, or nothing for any
    other event type. *)
Theorem handle_event_post_lifecycle (s : ClutterSeat) (ev : ClutterEvent)
  (device : ClutterInputDevice) :
  clutter_event_get_source_device ev = Some device ->
  clutter_seat_handle_event_post SEAT (Some ev) s
  = mkRun (Ret true) s
      ((if handle_event_post (klass s)
        then [BackendHandleEventPost ev] else [])
       ++ match event_type ev with
          | CLUTTER_DEVICE_ADDED => [SignalEmit DEVICE_ADDED [Some device]]
          | CLUTTER_DEVICE_REMOVED =>
              [SignalEmit DEVICE_REMOVED [Some device];
               RunDispose (Some device)]
          | _ => []
          end).
Proof.
  intros H. run_seat. rewrite H. cbn [CLUTTER_IS_INPUT_DEVICE negb].
  destruct (handle_event_post (klass s)), (event_type ev); reflexivity.
Qed.

Lemma handle_event_post_lifecycle_witness :
  clutter_event_get_source_device touchscreen_removed
  = Some physical_touchscreen
  /\ clutter_seat_handle_event_post SEAT (Some touchscreen_removed)
       (fresh_seat hooked_class)
     = mkRun (Ret true) (fresh_seat hooked_class)
         [BackendHandleEventPost touchscreen_removed;
          SignalEmit DEVICE_REMOVED [Some physical_touchscreen];
          RunDispose (Some physical_touchscreen)].
Proof.
  split; [reflexivity |].
  apply (handle_event_post_lifecycle (fresh_seat hooked_class)
           touchscreen_removed physical_touchscreen).
  reflexivity.
Defined.

(* ================================================================== *)
(** * Theorems: guards of the entry points *)
(* ================================================================== *)

(** X18: the entry points that start with a [CLUTTER_IS_SEAT] guard answer
    a pointer that is not a seat with their sentinel, log the failed check
    and touch neither the seat nor the backend. *)
Lemma guarded_entry_points_return_sentinel (p : SeatPtr) (s : ClutterSeat) :
  CLUTTER_IS_SEAT p = false ->
  let failed {A : Type} (v : A) :=
    mkRun (Ret v) s [GCritical "CLUTTER_IS_SEAT (seat)"] in
  clutter_seat_get_pointer p s = failed None
  /\ clutter_seat_get_keyboard p s = failed None
  /\ clutter_seat_peek_devices p s = failed []
  /\ clutter_seat_list_devices p s = failed []
  /\ (forall n, clutter_seat_set_pointer_a11y_settings p n s = failed tt)
  /\ (forall buf, clutter_seat_get_pointer_a11y_settings p buf s = failed buf)
  /\ (forall t, clutter_seat_set_pointer_a11y_dwell_click_type p t s = failed tt)
  /\ clutter_seat_inhibit_unfocus p s = failed tt
  /\ clutter_seat_uninhibit_unfocus p s = failed tt
  /\ clutter_seat_is_unfocus_inhibited p s = failed false
  /\ clutter_seat_get_supported_virtual_device_types p s
     = failed CLUTTER_VIRTUAL_DEVICE_TYPE_NONE
  /\ (forall ev, clutter_seat_handle_event_post p ev s = failed false)
  /\ clutter_seat_get_touch_mode p s = failed false
  /\ clutter_seat_has_touchscreen p s = failed false.
Proof.
  intros H. destruct p; [| | discriminate H]; cbv zeta; repeat split.
Qed.

(** C4 (the code departs from the claim): bell_notify, get_keymap and grab
    have no guard; handed the null pointer they read the class through it,
    which is an invalid dereference and not a sentinel return. *)
Theorem unguarded_entry_points_dereference_null (s : ClutterSeat) (time : Z) :
  clutter_seat_bell_notify NULL s = mkRun (Crash InvalidDereference) s []
  /\ clutter_seat_get_keymap NULL s = mkRun (Crash InvalidDereference) s []
  /\ clutter_seat_grab NULL time s = mkRun (Crash InvalidDereference) s []
  /\ clutter_seat_get_pointer NULL s
     = mkRun (Ret None) s [GCritical "CLUTTER_IS_SEAT (seat)"].
Proof. repeat split. Qed.

(* ================================================================== *)
(** * Theorems: optional grab operations *)
(* ================================================================== *)

(** C8: on a seat whose class leaves the grab slot empty, clutter_seat_grab
    returns CLUTTER_GRAB_STATE_ALL for every time argument, calling nothing
    and changing nothing; on a seat whose class leaves the ungrab slot
    empty, clutter_seat_ungrab returns having called and changed nothing. *)
Theorem grab_ungrab_defaults :
  (forall (s : ClutterSeat) (time : Z),
      grab (klass s) = None ->
      clutter_seat_grab SEAT time s = mkRun (Ret CLUTTER_GRAB_STATE_ALL) s [])
  /\ (forall (s : ClutterSeat) (time : Z),
        ungrab (klass s) = false ->
        clutter_seat_ungrab SEAT time s = mkRun (Ret tt) s []).
Proof.
  split; intros s time H; run_seat; rewrite H; reflexivity.
Qed.

Lemma grab_ungrab_defaults_witness :
  grab (klass (fresh_seat plain_class)) = None
  /\ ungrab (klass (fresh_seat plain_class)) = false
  /\ clutter_seat_grab SEAT 1234 (fresh_seat plain_class)
     = mkRun (Ret CLUTTER_GRAB_STATE_ALL) (fresh_seat plain_class) []
  /\ clutter_seat_ungrab SEAT 1234 (fresh_seat plain_class)
     = mkRun (Ret tt) (fresh_seat plain_class) [].
Proof.
  split; [reflexivity |]. split; [reflexivity |]. split.
  - apply (proj1 grab_ungrab_defaults). reflexivity.
  - apply (proj2 grab_ungrab_defaults). reflexivity.
Defined.

(** When the slots are filled the backend is called and its answer passed on. *)
Lemma grab_ungrab_implemented (s : ClutterSeat) (time : Z)
  (backend_grab : Z -> ClutterGrabState) :
  (grab (klass s) = Some backend_grab ->
   clutter_seat_grab SEAT time s
   = mkRun (Ret (backend_grab time)) s [BackendGrab time])
  /\ (ungrab (klass s) = true ->
      clutter_seat_ungrab SEAT time s = mkRun (Ret tt) s [BackendUngrab time]).
Proof.
  split; intros H; run_seat; rewrite H; reflexivity.
Qed.

(* ================================================================== *)
(** * Theorems: touch mode and touchscreens *)
(* ================================================================== *)




Lemma has_touchscreen_run (s : ClutterSeat) :
  clutter_seat_has_touchscreen SEAT s
  = mkRun (Ret (has_touchscreen_loop (peek_devices (klass s)))) s [].
Proof. reflexivity. Qed.




(* ================================================================== *)
(** * Further properties: the reference count *)
(* ================================================================== *)

Lemma changed_emissions_app (a b : list Action) :
  changed_emissions (a ++ b) = (changed_emissions a + changed_emissions b)%nat.
Proof.
  induction a as [| x a IH]; [reflexivity |].
  cbn [app changed_emissions].
  destruct x as [[] ? | | | | | | | | |]; rewrite IH; reflexivity.
Qed.

Lemma do_calls_cons_run (c : UnfocusCall) (cs : list UnfocusCall)
  (s : ClutterSeat) :
  do_calls (c :: cs) s
  = mkRun (outcome (do_calls cs (after (do_call c s))))
          (after (do_calls cs (after (do_call c s))))
          (trace (do_call c s) ++ trace (do_calls cs (after (do_call c s)))).
Proof.
  cbn [do_calls]. unfold bind. rewrite do_call_returns. reflexivity.
Qed.

Lemma do_calls_app_run (pre post : list UnfocusCall) (s : ClutterSeat) :
  do_calls (pre ++ post) s
  = mkRun (outcome (do_calls post (after (do_calls pre s))))
          (after (do_calls post (after (do_calls pre s))))
          (trace (do_calls pre s) ++ trace (do_calls post (after (do_calls pre s)))).
Proof.
  revert s. induction pre as [| c pre IH]; intros s.
  - cbn [app do_calls ret after trace]. destruct (do_calls post s); reflexivity.
  - rewrite <- app_comm_cons, !do_calls_cons_run, IH.
    cbn [outcome after trace]. rewrite app_assoc. reflexivity.
Qed.

(** What one call leaves alone, and the range it lands in. *)
Lemma do_call_frame (c : UnfocusCall) (s : ClutterSeat) :
  klass (after (do_call c s)) = klass s
  /\ pointer_a11y_settings (priv (after (do_call c s)))
     = pointer_a11y_settings (priv s)
  /\ 0 <= inhibit_unfocus_count (priv (after (do_call c s))) <= UINT_MAX
  /\ Forall (fun a =>
               a = SignalEmit IS_UNFOCUS_INHIBITED_CHANGED []
               \/ a = GWarning
                   "Called clutter_seat_uninhibit_unfocus without inhibiting before")
            (trace (do_call c s)).
Proof.
  destruct c; cbn [do_call].
  - rewrite inhibit_unfocus_run. cbv zeta.
    cbn [after trace klass priv set_inhibit_unfocus_count
         pointer_a11y_settings inhibit_unfocus_count].
    repeat split; try apply guint_wrap_range.
    destruct (_ =? 1); repeat constructor.
  - destruct (Z.eq_dec (inhibit_unfocus_count (priv s)) 0) as [E | E].
    + rewrite uninhibit_unfocus_run_zero by exact E.
      cbn [after trace]. rewrite E. unfold UINT_MAX.
      repeat split; try lia. constructor; [right; reflexivity | constructor].
    + rewrite uninhibit_unfocus_run_pos by exact E. cbv zeta.
      cbn [after trace klass priv set_inhibit_unfocus_count
           pointer_a11y_settings inhibit_unfocus_count].
      repeat split; try apply guint_wrap_range.
      destruct (_ =? 0); repeat constructor.
Qed.

Lemma do_call_bounded (c : UnfocusCall) (s : ClutterSeat) :
  0 <= inhibit_unfocus_count (priv s) <= UINT_MAX ->
  inhibit_unfocus_count (priv (after (do_call c s)))
  <= inhibit_unfocus_count (priv s)
     + match c with Inhibit => 1 | Uninhibit => 0 end.
Proof.
  intros H. destruct c; cbn [do_call].
  - rewrite inhibit_unfocus_run. cbv zeta.
    cbn [after priv set_inhibit_unfocus_count inhibit_unfocus_count].
    unfold guint_wrap, UINT_MAX in *.
    destruct (Z.eq_dec (inhibit_unfocus_count (priv s)) 4294967295) as [E | E].
    + rewrite E. cbn. lia.
    + rewrite Z.mod_small by lia. lia.
  - destruct (Z.eq_dec (inhibit_unfocus_count (priv s)) 0) as [E | E].
    + rewrite uninhibit_unfocus_run_zero by exact E. cbn [after]. lia.
    + rewrite uninhibit_unfocus_run_pos by exact E. cbv zeta.
      cbn [after priv set_inhibit_unfocus_count inhibit_unfocus_count].
      rewrite guint_wrap_small by lia. lia.
Qed.

(** X1: uninhibit calls can never raise the count, however unbalanced
    they are: after any calls on a seat whose count is in range, the count
    is at most the count it started with plus the number of inhibit calls
    made; an uninhibit at 0 does not wrap the counter round to UINT_MAX. *)
Theorem unfocus_count_bounded_by_inhibits (cs : list UnfocusCall)
  (s : ClutterSeat) :
  0 <= inhibit_unfocus_count (priv s) <= UINT_MAX ->
  inhibit_unfocus_count (priv (after (do_calls cs s)))
  <= inhibit_unfocus_count (priv s) + spec_increments cs.
Proof.
  revert s. induction cs as [| c cs IH]; intros s H.
  - cbn [do_calls ret after spec_increments]. lia.
  - rewrite do_calls_cons.
    pose proof (do_call_bounded c s H) as Hstep.
    assert (Hr : 0 <= inhibit_unfocus_count (priv (after (do_call c s)))
                 <= UINT_MAX) by apply do_call_frame.
    specialize (IH (after (do_call c s)) Hr).
    destruct c; cbn [spec_increments]; lia.
Qed.

Lemma unfocus_count_bounded_by_inhibits_witness :
  0 <= inhibit_unfocus_count (priv (fresh_seat plain_class)) <= UINT_MAX
  /\ inhibit_unfocus_count
       (priv (after (do_calls [Uninhibit; Uninhibit; Inhibit; Uninhibit;
                               Uninhibit]
                              (fresh_seat plain_class))))
     <= inhibit_unfocus_count (priv (fresh_seat plain_class))
        + spec_increments [Uninhibit; Uninhibit; Inhibit; Uninhibit; Uninhibit].
Proof.
  assert (H : 0 <= inhibit_unfocus_count (priv (fresh_seat plain_class))
              <= UINT_MAX)
    by (simpl; unfold UINT_MAX; lia).
  split; [exact H |].
  apply (unfocus_count_bounded_by_inhibits
           [Uninhibit; Uninhibit; Inhibit; Uninhibit; Uninhibit]
           (fresh_seat plain_class) H).
Defined.

(** X2: inhibit and uninhibit calls touch nothing but the count: the
    pointer accessibility settings and the class are as before, and the
    only things they ever call are the is-unfocus-inhibited-changed
    emission and the misuse warning. *)
Theorem unfocus_calls_frame (cs : list UnfocusCall) (s : ClutterSeat) :
  klass (after (do_calls cs s)) = klass s
  /\ pointer_a11y_settings (priv (after (do_calls cs s)))
     = pointer_a11y_settings (priv s)
  /\ Forall (fun a =>
               a = SignalEmit IS_UNFOCUS_INHIBITED_CHANGED []
               \/ a = GWarning
                   "Called clutter_seat_uninhibit_unfocus without inhibiting before")
            (trace (do_calls cs s)).
Proof.
  revert s. induction cs as [| c cs IH]; intros s.
  - cbn [do_calls ret after trace]. repeat split. constructor.
  - rewrite do_calls_cons_run. cbn [after trace].
    destruct (do_call_frame c s) as (Hk & Hp & _ & Ht).
    destruct (IH (after (do_call c s))) as (Hk' & Hp' & Ht').
    rewrite Hk', Hp', Hk, Hp. repeat split.
    apply Forall_app. split; assumption.
Qed.

(** X3: below the top of the range an inhibit followed by an uninhibit is
    a round trip: the seat is exactly as before; the pair emits the changed
    notification twice when the count was 0 and not at all otherwise. *)
Theorem inhibit_then_uninhibit_restores (s : ClutterSeat) :
  0 <= inhibit_unfocus_count (priv s) < UINT_MAX ->
  (clutter_seat_inhibit_unfocus SEAT ;;; clutter_seat_uninhibit_unfocus SEAT) s
  = mkRun (Ret tt) s
      (if inhibit_unfocus_count (priv s) =? 0
       then [SignalEmit IS_UNFOCUS_INHIBITED_CHANGED [];
             SignalEmit IS_UNFOCUS_INHIBITED_CHANGED []]
       else []).
Proof.
  intros H. destruct s as [k [c st]].
  cbn [priv inhibit_unfocus_count] in *.
  unfold bind. rewrite inhibit_unfocus_run. cbv zeta.
  cbn [outcome after trace priv klass inhibit_unfocus_count
       set_inhibit_unfocus_count pointer_a11y_settings].
  rewrite (guint_wrap_small (c + 1)) by lia.
  rewrite uninhibit_unfocus_run_pos
    by (cbn [priv inhibit_unfocus_count set_inhibit_unfocus_count]; lia).
  cbv zeta.
  cbn [outcome after trace priv klass inhibit_unfocus_count
       set_inhibit_unfocus_count pointer_a11y_settings].
  replace (c + 1 - 1) with c by lia.
  rewrite (guint_wrap_small c) by lia.
  destruct (Z.eqb_spec c 0) as [-> | N].
  - reflexivity.
  - destruct (Z.eqb_spec (c + 1) 1); [lia | reflexivity].
Qed.

Lemma inhibit_then_uninhibit_restores_witness :
  0 <= inhibit_unfocus_count (priv (fresh_seat plain_class)) < UINT_MAX
  /\ after ((clutter_seat_inhibit_unfocus SEAT ;;;
             clutter_seat_uninhibit_unfocus SEAT) (fresh_seat plain_class))
     = fresh_seat plain_class.
Proof.
  assert (H : 0 <= inhibit_unfocus_count (priv (fresh_seat plain_class))
              < UINT_MAX) by (simpl; unfold UINT_MAX; lia).
  split; [exact H |].
  rewrite (inhibit_then_uninhibit_restores (fresh_seat plain_class) H).
  reflexivity.
Defined.

Lemma inhibit_step_small (s : ClutterSeat) :
  0 <= inhibit_unfocus_count (priv s) < UINT_MAX ->
  do_call Inhibit s
  = mkRun (Ret tt)
      (mkSeat (klass s)
         (mkPrivate (inhibit_unfocus_count (priv s) + 1)
                    (pointer_a11y_settings (priv s))))
      (if inhibit_unfocus_count (priv s) =? 0
       then [SignalEmit IS_UNFOCUS_INHIBITED_CHANGED []] else []).
Proof.
  intros H. cbn [do_call]. rewrite inhibit_unfocus_run. cbv zeta.
  rewrite guint_wrap_small by lia. unfold set_inhibit_unfocus_count.
  destruct (Z.eqb_spec (inhibit_unfocus_count (priv s) + 1) 1),
    (Z.eqb_spec (inhibit_unfocus_count (priv s)) 0); try lia; reflexivity.
Qed.

Lemma uninhibit_step_pos (s : ClutterSeat) :
  0 < inhibit_unfocus_count (priv s) <= UINT_MAX ->
  do_call Uninhibit s
  = mkRun (Ret tt)
      (mkSeat (klass s)
         (mkPrivate (inhibit_unfocus_count (priv s) - 1)
                    (pointer_a11y_settings (priv s))))
      (if inhibit_unfocus_count (priv s) =? 1
       then [SignalEmit IS_UNFOCUS_INHIBITED_CHANGED []] else []).
Proof.
  intros H. cbn [do_call]. rewrite uninhibit_unfocus_run_pos by lia. cbv zeta.
  rewrite guint_wrap_small by lia. unfold set_inhibit_unfocus_count.
  destruct (Z.eqb_spec (inhibit_unfocus_count (priv s) - 1) 0),
    (Z.eqb_spec (inhibit_unfocus_count (priv s)) 1); try lia; reflexivity.
Qed.

Lemma balanced_calls_from (n : nat) (s : ClutterSeat) :
  0 <= inhibit_unfocus_count (priv s) ->
  inhibit_unfocus_count (priv s) + Z.of_nat n <= UINT_MAX ->
  after (do_calls (repeat Inhibit n ++ repeat Uninhibit n) s) = s
  /\ changed_emissions
       (trace (do_calls (repeat Inhibit n ++ repeat Uninhibit n) s))
     = if (inhibit_unfocus_count (priv s) =? 0) && negb (Nat.eqb n 0)
       then 2%nat else 0%nat.
Proof.
  revert s. induction n as [| n IH]; intros s Hlo Hhi.
  - cbn [repeat app do_calls ret after trace changed_emissions Nat.eqb negb].
    rewrite andb_false_r. split; reflexivity.
  - replace (repeat Inhibit (S n) ++ repeat Uninhibit (S n))
      with (Inhibit :: (repeat Inhibit n ++ repeat Uninhibit n) ++ [Uninhibit])
      by (cbn [repeat app]; rewrite (repeat_cons n Uninhibit), app_assoc;
          reflexivity).
    rewrite do_calls_cons_run, do_calls_app_run.
    cbn [after trace]. rewrite !changed_emissions_app.
    rewrite inhibit_step_small by lia. cbn [after trace].
    set (s1 := mkSeat (klass s)
                 (mkPrivate (inhibit_unfocus_count (priv s) + 1)
                            (pointer_a11y_settings (priv s)))).
    destruct (IH s1) as [Ha Ht];
      [cbn [s1 priv inhibit_unfocus_count]; lia
      | cbn [s1 priv inhibit_unfocus_count]; lia |].
    rewrite Ha, Ht.
    replace (inhibit_unfocus_count (priv s1) =? 0) with false
      by (symmetry; apply Z.eqb_neq; cbn [s1 priv inhibit_unfocus_count]; lia).
    cbn [andb].
    rewrite do_calls_cons_run. cbn [do_calls ret after trace].
    rewrite uninhibit_step_pos by (cbn [s1 priv inhibit_unfocus_count]; lia).
    cbn [after trace s1 priv klass inhibit_unfocus_count pointer_a11y_settings].
    replace (inhibit_unfocus_count (priv s) + 1 - 1)
      with (inhibit_unfocus_count (priv s)) by lia.
    split.
    + destruct s as [k [c st]]. reflexivity.
    + cbn [Nat.eqb negb]. rewrite andb_true_r, app_nil_r.
      destruct (Z.eqb_spec (inhibit_unfocus_count (priv s)) 0) as [E | E].
      * rewrite E. reflexivity.
      * destruct (Z.eqb_spec (inhibit_unfocus_count (priv s) + 1) 1);
          [lia | reflexivity].
Qed.

(** X4: n inhibits answered by n uninhibits bring a seat that started at
    count 0 back to exactly the state it had, for every n up to UINT_MAX;
    the whole exchange emits the changed notification twice (once going
    up, once coming down) unless n is 0. *)
Theorem balanced_calls_restore (n : nat) (s : ClutterSeat) :
  inhibit_unfocus_count (priv s) = 0 ->
  Z.of_nat n <= UINT_MAX ->
  outcome (do_calls (repeat Inhibit n ++ repeat Uninhibit n) s) = Ret tt
  /\ after (do_calls (repeat Inhibit n ++ repeat Uninhibit n) s) = s
  /\ changed_emissions
       (trace (do_calls (repeat Inhibit n ++ repeat Uninhibit n) s))
     = if Nat.eqb n 0 then 0%nat else 2%nat.
Proof.
  intros H0 Hn. split; [apply do_calls_returns |].
  destruct (balanced_calls_from n s) as [Ha Ht]; [lia | lia |].
  split; [exact Ha |]. rewrite Ht, H0. cbn [Z.eqb andb].
  destruct (Nat.eqb n 0); reflexivity.
Qed.

Lemma balanced_calls_restore_witness :
  inhibit_unfocus_count (priv (fresh_seat plain_class)) = 0
  /\ Z.of_nat 3 <= UINT_MAX
  /\ after (do_calls (repeat Inhibit 3 ++ repeat Uninhibit 3)
              (fresh_seat plain_class))
     = fresh_seat plain_class.
Proof.
  split; [reflexivity |]. split; [vm_compute; discriminate |].
  refine (proj1 (proj2 (balanced_calls_restore 3 (fresh_seat plain_class) _ _))).
  - reflexivity.
  - vm_compute; discriminate.
Defined.

Lemma do_calls_parity_from (cs : list UnfocusCall) (s : ClutterSeat) :
  0 <= inhibit_unfocus_count (priv s) ->
  spec_peak_from (inhibit_unfocus_count (priv s)) cs <= UINT_MAX ->
  Nat.odd (changed_emissions (trace (do_calls cs s)))
  = xorb (0 <? inhibit_unfocus_count (priv s))
         (0 <? inhibit_unfocus_count (priv (after (do_calls cs s)))).
Proof.
  revert s. induction cs as [| call cs IH]; intros s Hlo Hhi.
  - cbn [do_calls ret trace after changed_emissions]. rewrite xorb_nilpotent.
    reflexivity.
  - cbn [spec_peak_from] in Hhi.
    pose proof (spec_peak_from_ge
                  (spec_step (inhibit_unfocus_count (priv s)) call) cs) as Hge.
    destruct (do_call_refines call s Hlo) as [Hc He]; [lia |].
    rewrite do_calls_cons_run. cbn [trace after].
    rewrite changed_emissions_app, Nat.odd_add, He.
    rewrite IH by (rewrite Hc; first [apply spec_step_nonneg, Hlo | lia]).
    rewrite Hc, <- xorb_assoc. f_equal.
    set (c := inhibit_unfocus_count (priv s)) in *.
    unfold spec_transition.
    destruct call; cbn [spec_step].
    + destruct (Z.eqb_spec c 0), (Z.eqb_spec (c + 1) 1), (Z.eqb_spec c 1),
        (Z.eqb_spec (c + 1) 0), (Z.ltb_spec 0 c), (Z.ltb_spec 0 (c + 1));
        try lia; reflexivity.
    + destruct (Z.eqb_spec c 0) as [E | E].
      * rewrite E. reflexivity.
      * destruct (Z.eqb_spec (c - 1) 1), (Z.eqb_spec c 1),
          (Z.eqb_spec (c - 1) 0), (Z.ltb_spec 0 c), (Z.ltb_spec 0 (c - 1));
          try lia; reflexivity.
Qed.

(** X5: a listener that flips a flag at every is-unfocus-inhibited-changed
    emission stays in step with the seat: after any calls on a seat that
    started at count 0, with the count never above UINT_MAX,
    is_unfocus_inhibited() is true exactly when the number of emissions so
    far is odd. *)
Theorem changed_emissions_parity (cs : list UnfocusCall) (s : ClutterSeat) :
  inhibit_unfocus_count (priv s) = 0 ->
  spec_peak cs <= UINT_MAX ->
  outcome (clutter_seat_is_unfocus_inhibited SEAT (after (do_calls cs s)))
  = Ret (Nat.odd (changed_emissions (trace (do_calls cs s)))).
Proof.
  intros H0 Hp. unfold spec_peak in Hp.
  rewrite is_unfocus_inhibited_run. cbn [outcome].
  rewrite do_calls_parity_from by (rewrite H0; first [exact Hp | lia]).
  rewrite H0. reflexivity.
Qed.

Lemma changed_emissions_parity_witness :
  inhibit_unfocus_count (priv (fresh_seat plain_class)) = 0
  /\ spec_peak [Inhibit; Inhibit; Uninhibit; Uninhibit; Uninhibit; Inhibit]
     <= UINT_MAX
  /\ outcome (clutter_seat_is_unfocus_inhibited SEAT
       (after (do_calls
                 [Inhibit; Inhibit; Uninhibit; Uninhibit; Uninhibit; Inhibit]
                 (fresh_seat plain_class))))
     = Ret (Nat.odd 3).
Proof.
  split; [reflexivity |]. split; [vm_compute; discriminate |].
  refine (changed_emissions_parity
            [Inhibit; Inhibit; Uninhibit; Uninhibit; Uninhibit; Inhibit]
            (fresh_seat plain_class) _ _).
  - reflexivity.
  - vm_compute; discriminate.
Defined.

(** X6: at count UINT_MAX one more inhibit wraps the count to 0 without
    any emission: is_unfocus_inhibited() goes from true to false unseen,
    and an uninhibit that follows only draws the misuse warning. *)
Theorem inhibit_at_uint_max_wraps (s : ClutterSeat) :
  inhibit_unfocus_count (priv s) = UINT_MAX ->
  let s' := mkSeat (klass s) (set_inhibit_unfocus_count (priv s) 0) in
  clutter_seat_inhibit_unfocus SEAT s = mkRun (Ret tt) s' []
  /\ outcome (clutter_seat_is_unfocus_inhibited SEAT s) = Ret true
  /\ outcome (clutter_seat_is_unfocus_inhibited SEAT s') = Ret false
  /\ clutter_seat_uninhibit_unfocus SEAT s'
     = mkRun (Ret tt) s'
         [GWarning
            "Called clutter_seat_uninhibit_unfocus without inhibiting before"].
Proof.
  intros H s'. rewrite inhibit_unfocus_run, !is_unfocus_inhibited_run, H.
  cbv zeta. subst s'.
  assert (Hw : guint_wrap (UINT_MAX + 1) = 0) by reflexivity.
  rewrite Hw. repeat split.
Qed.

Lemma inhibit_at_uint_max_wraps_witness :
  inhibit_unfocus_count (priv saturated_seat) = UINT_MAX
  /\ clutter_seat_inhibit_unfocus SEAT saturated_seat
     = mkRun (Ret tt) (fresh_seat plain_class) [].
Proof.
  split; [reflexivity |].
  exact (proj1 (inhibit_at_uint_max_wraps saturated_seat eq_refl)).
Defined.

(* ================================================================== *)
(** * Further properties: pointer accessibility settings *)
(* ================================================================== *)

Lemma transition_hooks_same (p : DevicePtr) (c : Z) :
  transition_hooks p c c = [].
Proof. unfold transition_hooks. destruct (c =? 0); reflexivity. Qed.

Lemma seat_eta (s : ClutterSeat) :
  mkSeat (klass s)
    (mkPrivate (inhibit_unfocus_count (priv s)) (pointer_a11y_settings (priv s)))
  = s.
Proof. destruct s as [k [c st]]. reflexivity. Qed.

(** One update, in one equation: the stored settings become what the
    update asks for and the calls are those of the controls transition;
    the early return on equal settings cannot be told from a store. *)
Lemma do_update_run (u : A11yUpdate) (s : ClutterSeat) :
  do_update u s
  = mkRun (Ret tt)
      (mkSeat (klass s)
         (set_pointer_a11y_settings (priv s)
            (apply_update (pointer_a11y_settings (priv s)) u)))
      (transition_hooks (get_pointer (klass s))
         (controls (pointer_a11y_settings (priv s)))
         (controls (apply_update (pointer_a11y_settings (priv s)) u))).
Proof.
  destruct u as [n | t]; cbn [do_update apply_update].
  - destruct (are_pointer_a11y_settings_equal
                (pointer_a11y_settings (priv s)) n) eqn:Q.
    + apply are_pointer_a11y_settings_equal_spec in Q.
      rewrite set_pointer_a11y_settings_run_same by exact Q.
      rewrite <- Q, transition_hooks_same. unfold set_pointer_a11y_settings.
      rewrite seat_eta. reflexivity.
    + apply set_pointer_a11y_settings_run_new.
      intros C. apply are_pointer_a11y_settings_equal_spec in C. congruence.
  - rewrite set_dwell_click_type_run. cbn [set_dwell_click_type controls].
    rewrite transition_hooks_same. reflexivity.
Qed.

Lemma transition_hooks_balance (p : DevicePtr) (cur new : Z) :
  add_device_calls (transition_hooks p cur new)
  - remove_device_calls (transition_hooks p cur new)
  = (if new =? 0 then 0 else 1) - (if cur =? 0 then 0 else 1).
Proof.
  unfold transition_hooks. destruct (cur =? 0), (new =? 0); reflexivity.
Qed.

Lemma transition_hooks_actions (p : DevicePtr) (cur new : Z) :
  Forall (fun a => a = A11yAddDevice p \/ a = A11yRemoveDevice p)
         (transition_hooks p cur new).
Proof.
  unfold transition_hooks. destruct (cur =? 0), (new =? 0); cbn;
    repeat first [apply Forall_nil | apply Forall_cons; [auto |]].
Qed.

Lemma add_device_calls_app (a b : list Action) :
  add_device_calls (a ++ b) = add_device_calls a + add_device_calls b.
Proof.
  induction a as [| x a IH]; [reflexivity |].
  cbn [app add_device_calls]. destruct x; rewrite IH; lia.
Qed.

Lemma remove_device_calls_app (a b : list Action) :
  remove_device_calls (a ++ b) = remove_device_calls a + remove_device_calls b.
Proof.
  induction a as [| x a IH]; [reflexivity |].
  cbn [app remove_device_calls]. destruct x; rewrite IH; lia.
Qed.

Lemma do_updates_cons_run (u : A11yUpdate) (us : list A11yUpdate)
  (s : ClutterSeat) :
  do_updates (u :: us) s
  = mkRun (outcome (do_updates us (after (do_update u s))))
          (after (do_updates us (after (do_update u s))))
          (trace (do_update u s) ++ trace (do_updates us (after (do_update u s)))).
Proof.
  cbn [do_updates]. unfold bind. rewrite do_update_run. reflexivity.
Qed.

Lemma do_updates_facts (us : list A11yUpdate) (s : ClutterSeat) :
  outcome (do_updates us s) = Ret tt
  /\ klass (after (do_updates us s)) = klass s
  /\ inhibit_unfocus_count (priv (after (do_updates us s)))
     = inhibit_unfocus_count (priv s)
  /\ pointer_a11y_settings (priv (after (do_updates us s)))
     = fold_left apply_update us (pointer_a11y_settings (priv s))
  /\ add_device_calls (trace (do_updates us s))
     - remove_device_calls (trace (do_updates us s))
     = controls_set (after (do_updates us s)) - controls_set s
  /\ Forall (fun a => a = A11yAddDevice (get_pointer (klass s))
                      \/ a = A11yRemoveDevice (get_pointer (klass s)))
            (trace (do_updates us s)).
Proof.
  revert s. induction us as [| u us IH]; intros s.
  - cbn [do_updates ret outcome after trace fold_left add_device_calls
         remove_device_calls]. repeat split; [lia | constructor].
  - rewrite do_updates_cons_run. cbn [outcome after trace fold_left].
    destruct (IH (after (do_update u s))) as (Ho & Hk & Hc & Hs & Hb & Hf).
    rewrite add_device_calls_app, remove_device_calls_app.
    rewrite do_update_run in *.
    cbn [after trace klass priv set_pointer_a11y_settings
         inhibit_unfocus_count pointer_a11y_settings] in *.
    split; [exact Ho |]. split; [exact Hk |]. split; [exact Hc |].
    split; [exact Hs |]. split.
    + pose proof (transition_hooks_balance (get_pointer (klass s))
                    (controls (pointer_a11y_settings (priv s)))
                    (controls (apply_update (pointer_a11y_settings (priv s)) u)))
        as Hstep.
      unfold controls_set, set_pointer_a11y_settings in *.
      cbn [priv pointer_a11y_settings] in *. lia.
    + apply Forall_app. split; [apply transition_hooks_actions | exact Hf].
Qed.

(** X7: registration with the accessibility subsystem stays balanced with
    the stored controls.  Over any sequence of full-settings and
    dwell-click-type updates, every call returns, the calls made are
    add-device and remove-device on the backend's pointer only, and the
    number of add-device calls minus the number of remove-device calls is
    1, 0 or -1 according to whether controls went from zero to nonzero,
    kept its zeroness, or went from nonzero to zero overall. *)
Theorem a11y_registration_balance (us : list A11yUpdate) (s : ClutterSeat) :
  outcome (do_updates us s) = Ret tt
  /\ add_device_calls (trace (do_updates us s))
     - remove_device_calls (trace (do_updates us s))
     = controls_set (after (do_updates us s)) - controls_set s
  /\ Forall (fun a => a = A11yAddDevice (get_pointer (klass s))
                      \/ a = A11yRemoveDevice (get_pointer (klass s)))
            (trace (do_updates us s)).
Proof.
  destruct (do_updates_facts us s) as (Ho & _ & _ & _ & Hb & Hf). auto.
Qed.

(** X8: no update is lost to the equal-settings shortcut: after any
    sequence of updates the stored settings are the last full settings
    given with the later dwell click types written over them (the fold of
    the updates over the initial settings), get_pointer_a11y_settings
    returns exactly that, and the inhibit count and class are untouched. *)
Theorem a11y_updates_last_write_wins (us : list A11yUpdate) (s : ClutterSeat)
  (buf : ClutterPointerA11ySettings) :
  pointer_a11y_settings (priv (after (do_updates us s)))
  = fold_left apply_update us (pointer_a11y_settings (priv s))
  /\ outcome (clutter_seat_get_pointer_a11y_settings SEAT buf
                (after (do_updates us s)))
     = Ret (fold_left apply_update us (pointer_a11y_settings (priv s)))
  /\ inhibit_unfocus_count (priv (after (do_updates us s)))
     = inhibit_unfocus_count (priv s)
  /\ klass (after (do_updates us s)) = klass s.
Proof.
  destruct (do_updates_facts us s) as (_ & Hk & Hc & Hs & _ & _).
  rewrite get_pointer_a11y_settings_run. cbn [outcome]. rewrite Hs. auto.
Qed.

(** X9: pointer accessibility settings are compared member by member:
    [are_pointer_a11y_settings_equal] is true exactly when controls, the
    dwell click type and every other member agree, so a change in any one
    member makes set_pointer_a11y_settings store the new value. *)
Theorem settings_equal_iff_all_members (a b : ClutterPointerA11ySettings) :
  are_pointer_a11y_settings_equal a b = true
  <-> controls a = controls b
      /\ dwell_click_type a = dwell_click_type b
      /\ other_params a = other_params b.
Proof.
  rewrite are_pointer_a11y_settings_equal_spec. split.
  - intros ->. auto.
  - destruct a, b. cbn. intros (-> & -> & ->). reflexivity.
Qed.

Lemma after_bind_ret {A B : Type} (m : M A) (k : A -> M B) (s : ClutterSeat)
  (a : A) :
  outcome (m s) = Ret a -> after (bind m k s) = after (k a (after (m s))).
Proof. intros H. unfold bind. rewrite H. reflexivity. Qed.

Lemma do_update_frame (u : A11yUpdate) (s : ClutterSeat) :
  klass (after (do_update u s)) = klass s
  /\ inhibit_unfocus_count (priv (after (do_update u s)))
     = inhibit_unfocus_count (priv s)
  /\ pointer_a11y_settings (priv (after (do_update u s)))
     = apply_update (pointer_a11y_settings (priv s)) u.
Proof. rewrite do_update_run. repeat split. Qed.

Lemma do_call_count_only (c : UnfocusCall) (s s' : ClutterSeat) :
  inhibit_unfocus_count (priv s) = inhibit_unfocus_count (priv s') ->
  trace (do_call c s) = trace (do_call c s')
  /\ inhibit_unfocus_count (priv (after (do_call c s)))
     = inhibit_unfocus_count (priv (after (do_call c s'))).
Proof.
  intros E. destruct c; cbn [do_call].
  - rewrite !inhibit_unfocus_run, E. split; reflexivity.
  - destruct (Z.eq_dec (inhibit_unfocus_count (priv s)) 0) as [Z0 | N0].
    + rewrite !uninhibit_unfocus_run_zero by congruence.
      cbn [trace after]. auto.
    + rewrite !uninhibit_unfocus_run_pos by congruence.
      rewrite E. split; reflexivity.
Qed.

Lemma seat_ext (s1 s2 : ClutterSeat) :
  klass s1 = klass s2 ->
  inhibit_unfocus_count (priv s1) = inhibit_unfocus_count (priv s2) ->
  pointer_a11y_settings (priv s1) = pointer_a11y_settings (priv s2) ->
  s1 = s2.
Proof.
  destruct s1 as [k1 [c1 st1]], s2 as [k2 [c2 st2]]. cbn.
  intros -> -> ->. reflexivity.
Qed.

(** X10: the two pieces of bookkeeping are independent: an inhibit or
    uninhibit call and a settings update commute (either order ends in the
    same seat), and what each of them calls does not depend on whether the
    other has run first. *)
Theorem unfocus_and_a11y_commute (c : UnfocusCall) (u : A11yUpdate)
  (s : ClutterSeat) :
  after ((do_call c ;;; do_update u) s) = after ((do_update u ;;; do_call c) s)
  /\ trace (do_update u (after (do_call c s))) = trace (do_update u s)
  /\ trace (do_call c (after (do_update u s))) = trace (do_call c s).
Proof.
  destruct (do_call_frame c s) as (Hk & Hp & _ & _).
  destruct (do_call_frame c (after (do_update u s))) as (Hk' & Hp' & _ & _).
  destruct (do_update_frame u s) as (Uk & Uc & Us).
  destruct (do_update_frame u (after (do_call c s))) as (Uk' & Uc' & Us').
  destruct (do_call_count_only c (after (do_update u s)) s Uc) as [Ht Hc].
  split; [| split].
  - rewrite (after_bind_ret (do_call c) (fun _ => do_update u) s tt
               (do_call_returns c s)).
    rewrite (after_bind_ret (do_update u) (fun _ => do_call c) s tt)
      by (rewrite do_update_run; reflexivity).
    apply seat_ext; congruence.
  - rewrite !do_update_run. cbn [trace]. rewrite Hk, Hp. reflexivity.
  - exact Ht.
Qed.

(** X11: ensure_a11y_state needs no guard of its own: for every pointer,
    seat or not, it returns and leaves the seat as it was; handed a pointer
    that is not a seat it only logs the failed check of the pointer lookup
    and registers nothing; in no case does it call add-device more than
    once. *)
Theorem ensure_a11y_state_total (enabled : ClutterInputDevice -> bool)
  (p : SeatPtr) (s : ClutterSeat) :
  outcome (clutter_seat_ensure_a11y_state enabled p s) = Ret tt
  /\ after (clutter_seat_ensure_a11y_state enabled p s) = s
  /\ add_device_calls (trace (clutter_seat_ensure_a11y_state enabled p s)) <= 1
  /\ (CLUTTER_IS_SEAT p = false ->
      trace (clutter_seat_ensure_a11y_state enabled p s)
      = [GCritical "CLUTTER_IS_SEAT (seat)"]).
Proof.
  destruct p.
  1, 2: cbn; repeat split; lia.
  rewrite ensure_a11y_state_run. cbn [outcome after trace].
  repeat split; [| discriminate].
  destruct (get_pointer (klass s)) as [d |]; [destruct (enabled d) |]; cbn; lia.
Qed.

Lemma ensure_a11y_state_total_witness :
  CLUTTER_IS_SEAT NULL = false
  /\ trace (clutter_seat_ensure_a11y_state (fun _ => true) NULL
              (fresh_seat plain_class))
     = [GCritical "CLUTTER_IS_SEAT (seat)"].
Proof.
  split; [reflexivity |].
  apply (proj2 (proj2 (proj2 (ensure_a11y_state_total (fun _ => true) NULL
                                (fresh_seat plain_class))))).
  reflexivity.
Defined.

(* ================================================================== *)
(** * Further properties: events, touchscreens, guards *)
(* ================================================================== *)

Lemma handle_event_post_unresolved_device_aborts_witness :
  clutter_event_get_source_device pointer_moved_unresolved = None
  /\ clutter_seat_handle_event_post SEAT (Some pointer_moved_unresolved)
       (fresh_seat hooked_class)
     = mkRun (Crash AssertionFailure) (fresh_seat hooked_class)
         [BackendHandleEventPost pointer_moved_unresolved].
Proof.
  split; [reflexivity |].
  apply (handle_event_post_unresolved_device_aborts (fresh_seat hooked_class)
           pointer_moved_unresolved).
  reflexivity.
Defined.

(** X13: handle_event_post never changes the seat's own state, and it
    disposes a device in exactly one situation: the pointer is a seat, the
    event is present, its type is DEVICE_REMOVED and the disposed device is
    the event's resolved source device. *)
Theorem dispose_only_on_device_removed (p : SeatPtr)
  (ev : option ClutterEvent) (s : ClutterSeat) (d : DevicePtr) :
  after (clutter_seat_handle_event_post p ev s) = s
  /\ (In (RunDispose d) (trace (clutter_seat_handle_event_post p ev s))
      <-> p = SEAT
          /\ exists e,
               ev = Some e
               /\ event_type e = CLUTTER_DEVICE_REMOVED
               /\ clutter_event_get_source_device e = d
               /\ d <> None).
Proof.
  assert (Hno : forall msg,
             In (RunDispose d) [GCritical msg] -> False)
    by (intros msg [H | []]; discriminate H).
  destruct p.
  1, 2: cbn; split; [reflexivity |]; split;
    [intros H; exfalso; eapply Hno, H | intros [H _]; discriminate H].
  destruct ev as [[ty src] |].
  2: { cbn. split; [reflexivity |]. split.
       - intros H. exfalso. eapply Hno, H.
       - intros (_ & e & He & _). discriminate He. }
  run_seat. unfold clutter_event_get_source_device.
  cbn [event_source_device event_type].
  destruct src as [dev |]; cbn [CLUTTER_IS_INPUT_DEVICE negb];
    destruct (handle_event_post (klass s)); destruct ty;
    cbn [outcome after trace app]; (split; [reflexivity |]); split.
  all: try (intros (_ & e & He & Hty & Hsrc & Hd);
            injection He as <-; cbn [event_type event_source_device] in *;
            first [discriminate Hty | congruence
                  | subst d; cbn; auto 6]).
  all: intros H; cbn [In] in H;
    repeat (destruct H as [H | H]; try discriminate H); try contradiction.
  all: injection H as <-; split; [reflexivity |]; eexists;
    repeat split; discriminate.
Qed.

(** X14: handle_event_post answers false exactly when one of its two
    guards stops it (the pointer is not a seat, or the event is null);
    then it has done nothing but log the failed check: the backend hook has
    not been called and the seat is untouched. *)
Theorem handle_event_post_false_iff_guard (p : SeatPtr)
  (ev : option ClutterEvent) (s : ClutterSeat) :
  (outcome (clutter_seat_handle_event_post p ev s) = Ret false
   <-> CLUTTER_IS_SEAT p = false \/ ev = None)
  /\ (outcome (clutter_seat_handle_event_post p ev s) = Ret false ->
      after (clutter_seat_handle_event_post p ev s) = s
      /\ exists check,
           trace (clutter_seat_handle_event_post p ev s) = [GCritical check]).
Proof.
  destruct p.
  1, 2: cbn; repeat split; eauto.
  destruct ev as [[ty src] |].
  2: { cbn. repeat split; eauto. }
  run_seat. unfold clutter_event_get_source_device.
  cbn [event_source_device event_type].
  destruct src as [dev |]; cbn [CLUTTER_IS_INPUT_DEVICE negb];
    destruct (handle_event_post (klass s)); destruct ty;
    cbn [outcome after trace app]; split;
    try (intros H; discriminate H);
    split; try (intros H; discriminate H);
    intros [H | H]; discriminate H.
Qed.

Lemma handle_event_post_false_iff_guard_witness :
  outcome (clutter_seat_handle_event_post SEAT None (fresh_seat hooked_class))
  = Ret false
  /\ after (clutter_seat_handle_event_post SEAT None (fresh_seat hooked_class))
     = fresh_seat hooked_class.
Proof.
  assert (H : outcome (clutter_seat_handle_event_post SEAT None
                         (fresh_seat hooked_class)) = Ret false)
    by reflexivity.
  split; [exact H |].
  exact (proj1 (proj2 (handle_event_post_false_iff_guard SEAT None
                         (fresh_seat hooked_class)) H)).
Defined.

Lemma has_touchscreen_loop_existsb (l : list ClutterInputDevice) :
  has_touchscreen_loop l = existsb is_physical_touchscreen l.
Proof.
  induction l as [| d l IH]; [reflexivity |].
  cbn [has_touchscreen_loop existsb]. unfold is_physical_touchscreen at 1.
  unfold clutter_input_device_get_device_mode,
    clutter_input_device_get_device_type.
  rewrite IH.
  destruct (negb (ClutterInputMode_eqb (device_mode d) CLUTTER_INPUT_MODE_LOGICAL)
            && is_touchscreen_type (device_type d)); reflexivity.
Qed.

Lemma existsb_permutation {A : Type} (f : A -> bool) (l1 l2 : list A) :
  Permutation l1 l2 -> existsb f l1 = existsb f l2.
Proof.
  induction 1 as [| x l l' _ IH | x y l | l l' l'' _ IH1 _ IH2];
    cbn [existsb].
  - reflexivity.
  - rewrite IH. reflexivity.
  - destruct (f x), (f y); reflexivity.
  - congruence.
Qed.

(** X15: the answer of clutter_seat_has_touchscreen does not depend on the
    order of the device list (nor on anything else of the seat): two seats
    whose device lists are permutations of each other get the same
    answer, although the loop stops at the first match. *)
Theorem has_touchscreen_order_independent (s1 s2 : ClutterSeat) :
  Permutation (peek_devices (klass s1)) (peek_devices (klass s2)) ->
  outcome (clutter_seat_has_touchscreen SEAT s1)
  = outcome (clutter_seat_has_touchscreen SEAT s2).
Proof.
  intros H. rewrite !has_touchscreen_run. cbn [outcome].
  rewrite !has_touchscreen_loop_existsb.
  rewrite (existsb_permutation _ _ _ H). reflexivity.
Qed.

Lemma has_touchscreen_order_independent_witness :
  Permutation (peek_devices (klass (fresh_seat plain_class)))
              [physical_touchscreen; logical_pointer]
  /\ outcome (clutter_seat_has_touchscreen SEAT (fresh_seat plain_class))
     = outcome (clutter_seat_has_touchscreen SEAT
                  (mkSeat (mkClass clutter_seat_get_property None None
                             [physical_touchscreen; logical_pointer]
                             0 0 None false false)
                          (mkPrivate 0 zero_settings))).
Proof.
  assert (H : Permutation (peek_devices (klass (fresh_seat plain_class)))
                [physical_touchscreen; logical_pointer])
    by (simpl; apply perm_swap).
  split; [exact H |].
  apply (has_touchscreen_order_independent (fresh_seat plain_class)
           (mkSeat (mkClass clutter_seat_get_property None None
                      [physical_touchscreen; logical_pointer]
                      0 0 None false false)
                   (mkPrivate 0 zero_settings))).
  exact H.
Defined.

Lemma existsb_none {A : Type} (f : A -> bool) (l : list A) :
  forallb (fun x => negb (f x)) l = true -> existsb f l = false.
Proof.
  induction l as [| x l IH]; [reflexivity |].
  cbn [forallb existsb]. intros H. apply andb_true_iff in H as [Hx Hl].
  apply negb_true_iff in Hx. rewrite Hx. apply IH, Hl.
Qed.

(** X16: over a device list made of two parts the answer is the
    disjunction of the answers on the parts; so plugging devices in never
    turns a true answer false, and devices that are logical or are not
    touchscreens never change the answer. *)
Theorem has_touchscreen_of_parts (s : ClutterSeat)
  (l1 l2 : list ClutterInputDevice) :
  peek_devices (klass s) = l1 ++ l2 ->
  outcome (clutter_seat_has_touchscreen SEAT s)
  = Ret (has_touchscreen_loop l1 || has_touchscreen_loop l2)
  /\ (forallb (fun d => negb (is_physical_touchscreen d)) l2 = true ->
      outcome (clutter_seat_has_touchscreen SEAT s)
      = Ret (has_touchscreen_loop l1)).
Proof.
  intros H. rewrite has_touchscreen_run, H. cbn [outcome].
  rewrite !has_touchscreen_loop_existsb, existsb_app. split; [reflexivity |].
  intros Hn. rewrite (existsb_none _ _ Hn), orb_false_r. reflexivity.
Qed.

Lemma has_touchscreen_of_parts_witness :
  peek_devices (klass (fresh_seat plain_class))
  = [logical_pointer] ++ [physical_touchscreen]
  /\ forallb (fun d => negb (is_physical_touchscreen d)) [logical_pointer] = true
  /\ outcome (clutter_seat_has_touchscreen SEAT (fresh_seat plain_class))
     = Ret true.
Proof.
  split; [reflexivity |]. split; [reflexivity |].
  apply (proj1 (has_touchscreen_of_parts (fresh_seat plain_class)
                  [logical_pointer] [physical_touchscreen] eq_refl)).
Defined.

(** X17: clutter_seat_ungrab has no guard either: like bell_notify,
    get_keymap and grab it reads the class through the pointer it is
    given, so on the null pointer the read is an invalid dereference; the
    backend is not called, nothing is logged and no sentinel comes back,
    whether or not the class fills the ungrab slot. *)
Theorem ungrab_dereferences_null (s : ClutterSeat) (time : Z) :
  clutter_seat_ungrab NULL time s = mkRun (Crash InvalidDereference) s []
  /\ clutter_seat_ungrab SEAT time s
     = mkRun (Ret tt) s (if ungrab (klass s) then [BackendUngrab time] else []).
Proof.
  split; [reflexivity |]. run_seat. destruct (ungrab (klass s)); reflexivity.
Qed.

Lemma guarded_entry_points_return_sentinel_witness :
  CLUTTER_IS_SEAT NULL = false
  /\ clutter_seat_is_unfocus_inhibited NULL (fresh_seat plain_class)
     = mkRun (Ret false) (fresh_seat plain_class)
         [GCritical "CLUTTER_IS_SEAT (seat)"].
Proof.
  split; [reflexivity |].
  apply (guarded_entry_points_return_sentinel NULL (fresh_seat plain_class)).
  reflexivity.
Defined.

(** X19: query_state checks the seat first and the device second, and
    asks the backend only when both are valid: with a pointer that is not a
    seat, or with a null device on a seat, it returns false, leaves both
    output buffers with the content they had, logs the check that failed
    and changes nothing, whatever the backend would have answered; with a
    seat and a device the backend's answer and buffers are passed on. *)
Theorem query_state_guards
  (Sequence Point Modifiers : Type)
  (backend : ClutterInputDevice -> option Sequence -> option Point ->
             option Modifiers -> bool * option Point * option Modifiers)
  (p : SeatPtr) (device : DevicePtr) (sequence : option Sequence)
  (coords : option Point) (modifiers : option Modifiers) (s : ClutterSeat) :
  (CLUTTER_IS_SEAT p = false ->
   clutter_seat_query_state Sequence Point Modifiers backend
     p device sequence coords modifiers s
   = mkRun (Ret (false, coords, modifiers)) s
       [GCritical "CLUTTER_IS_SEAT (seat)"])
  /\ (device = None ->
      clutter_seat_query_state Sequence Point Modifiers backend
        SEAT device sequence coords modifiers s
      = mkRun (Ret (false, coords, modifiers)) s
          [GCritical "CLUTTER_IS_INPUT_DEVICE (device)"])
  /\ (forall dev, device = Some dev ->
      clutter_seat_query_state Sequence Point Modifiers backend
        SEAT device sequence coords modifiers s
      = mkRun (Ret (backend dev sequence coords modifiers)) s []).
Proof.
  split; [| split].
  - intros H. destruct p; [| | discriminate H]; reflexivity.
  - intros ->. reflexivity.
  - intros dev ->. reflexivity.
Qed.

Lemma query_state_guards_witness :
  CLUTTER_IS_SEAT NULL = false
  /\ clutter_seat_query_state Z Z Z
       (fun _ _ _ _ => (true, Some 11, Some 4))
       NULL (Some logical_pointer) None (Some 0) (Some 0)
       (fresh_seat plain_class)
     = mkRun (Ret (false, Some 0, Some 0)) (fresh_seat plain_class)
         [GCritical "CLUTTER_IS_SEAT (seat)"]
  /\ clutter_seat_query_state Z Z Z
       (fun _ _ _ _ => (true, Some 11, Some 4))
       SEAT None None (Some 0) (Some 0) (fresh_seat plain_class)
     = mkRun (Ret (false, Some 0, Some 0)) (fresh_seat plain_class)
         [GCritical "CLUTTER_IS_INPUT_DEVICE (device)"]
  /\ clutter_seat_query_state Z Z Z
       (fun _ _ _ _ => (true, Some 11, Some 4))
       SEAT (Some logical_pointer) None (Some 0) (Some 0)
       (fresh_seat plain_class)
     = mkRun (Ret (true, Some 11, Some 4)) (fresh_seat plain_class) [].
Proof.
  split; [reflexivity |]. split; [| split].
  - apply (proj1 (query_state_guards Z Z Z
                    (fun _ _ _ _ => (true, Some 11, Some 4))
                    NULL (Some logical_pointer) None (Some 0) (Some 0)
                    (fresh_seat plain_class))).
    reflexivity.
  - apply (proj1 (proj2 (query_state_guards Z Z Z
                           (fun _ _ _ _ => (true, Some 11, Some 4))
                           SEAT None None (Some 0) (Some 0)
                           (fresh_seat plain_class)))).
    reflexivity.
  - apply (proj2 (proj2 (query_state_guards Z Z Z
                           (fun _ _ _ _ => (true, Some 11, Some 4))
                           SEAT (Some logical_pointer) None (Some 0) (Some 0)
                           (fresh_seat plain_class))) logical_pointer).
    reflexivity.
Defined.
